(** * Aud-ISL-Convo: text to Indian-Sign-Language visuals

    A shallow embedding of the two deployments of the conversion service,
    [src/backend/server.py] (module [Backend]) and [src/server.py]
    (module [Root]), and of the Python built-ins their handlers call
    (module [Py]).  [Backend] and [Root] pass the tables as values;
    [BackendStore] and [RootStore] run the same handlers against a store of
    mutable list objects (module [Store]).

    Characters are code points below 256, carried by [ascii]; on that range
    [Py.lower], [Py.strip] and [Py.punctuation] follow CPython's [str.lower],
    [str.strip] and [string.punctuation] exactly.  A Python [str] is a
    [string]; a one-character [str] obtained by iterating over a [str] is the
    [string] [Py.chr c]. *)

From Stdlib Require Import Bool Arith Lia List NArith Ascii String.
From Stdlib Require Import Sorted Permutation.
Import ListNotations.
Open Scope string_scope.

(** ** Python built-ins *)

Module Py.

Definition ord (c : ascii) : N := N_of_ascii c.

Definition chr (c : ascii) : string := String c EmptyString.

Definition between (lo hi : N) (c : ascii) : bool :=
  ((lo <=? ord c) && (ord c <=? hi))%N.

(** The code points below 256 that [str.lower] changes: A-Z, and the capital
    letters of the Latin-1 supplement (U+00C0..U+00DE without the sign
    U+00D7).  This is not Unicode's uppercase property: it says what
    lowercasing changes, and only on these code points. *)
Definition is_upper (c : ascii) : bool :=
  between 65 90 c || between 192 214 c || between 216 222 c.

Definition lower_char (c : ascii) : ascii :=
  if is_upper c then ascii_of_N (ord c + 32) else c.

(** [s.lower()] on text of code points below 256, where [str.lower] maps
    character by character and keeps the length.  Outside that range it
    does neither (U+0130 becomes two code points, U+03A3 is lowercased by
    its context); such text is outside this model. *)
Fixpoint lower (s : string) : string :=
  match s with
  | EmptyString => EmptyString
  | String c s' => String (lower_char c) (lower s')
  end.

(** The code points [str.strip] removes: TAB..CR, FS..US, SPACE, NEL, NBSP. *)
Definition is_space (c : ascii) : bool :=
  between 9 13 c || between 28 32 c || (ord c =? 133)%N || (ord c =? 160)%N.

Fixpoint lstrip (s : string) : string :=
  match s with
  | EmptyString => EmptyString
  | String c s' => if is_space c then lstrip s' else s
  end.

Fixpoint rstrip (s : string) : string :=
  match s with
  | EmptyString => EmptyString
  | String c s' =>
      match rstrip s' with
      | EmptyString => if is_space c then EmptyString else chr c
      | r => String c r
      end
  end.

(** [s.strip()] *)
Definition strip (s : string) : string := rstrip (lstrip s).

(** [string.punctuation] *)
Definition punctuation : string :=
  String "!" (String "034" "#$%&'()*+,-./:;<=>?@[\]^_`{|}~").

(** [c in s] for a one-character [c] *)
Fixpoint char_in (c : ascii) (s : string) : bool :=
  match s with
  | EmptyString => false
  | String d s' => Ascii.eqb c d || char_in c s'
  end.

(** [''.join([c for c in s if keep(c)])] *)
Fixpoint join_if (keep : ascii -> bool) (s : string) : string :=
  match s with
  | EmptyString => EmptyString
  | String c s' =>
      if keep c then String c (join_if keep s') else join_if keep s'
  end.

(** [list(s)], and the values a [for char in s] loop runs through *)
Fixpoint chars (s : string) : list string :=
  match s with
  | EmptyString => []
  | String c s' => chr c :: chars s'
  end.

(** [x in l] for a list of strings *)
Definition list_in (x : string) (l : list string) : bool :=
  existsb (String.eqb x) l.

(** [sorted(l)] on strings: a stable insertion sort by code points *)
Fixpoint insert_sorted (x : string) (l : list string) : list string :=
  match l with
  | [] => [x]
  | y :: l' => if (y <? x)%string then y :: insert_sorted x l' else x :: l
  end.

Definition sorted (l : list string) : list string :=
  fold_right insert_sorted [] l.

(** [s.split(sep)] for a one-character [sep]: the piece before the first
    separator, and the pieces after it. *)
Fixpoint split_from (sep : ascii) (s : string) : string * list string :=
  match s with
  | EmptyString => (EmptyString, [])
  | String c s' =>
      let '(piece, pieces) := split_from sep s' in
      if Ascii.eqb c sep then (EmptyString, piece :: pieces)
      else (String c piece, pieces)
  end.

Definition split (sep : ascii) (s : string) : list string :=
  let '(piece, pieces) := split_from sep s in piece :: pieces.

(** [sep.join(l)] for a one-character [sep] *)
Definition join (sep : ascii) (l : list string) : string :=
  String.concat (chr sep) l.

(** [os.getenv(key, default)], over the variables of the environment *)
Definition getenv (environ : string -> option string) (key default : string)
  : string :=
  match environ key with
  | Some v => v
  | None => default
  end.

End Py.

(** ** What an endpoint hands back to the framework *)

(** JSON values occurring in the bodies of the service. *)
Inductive value : Type :=
| VStr (s : string)
| VInt (n : nat)
| VList (l : list string).

(** A Python [dict] literal (and a serialised response model): its keys in
    insertion order. *)
Definition dict : Type := list (string * value).

(** The three ways a request ends: the request model does not validate and
    the handler never runs (FastAPI answers 422), the handler raises
    [HTTPException], or the handler returns a body. *)
Inductive Outcome : Type :=
| Rejected
| Raised (status_code : nat) (detail : string)
| Returned (body : dict).

(** ** src/backend/server.py *)

Module Backend.

(** The module-level tables the handlers read. *)
Record Globals : Type := {
  ISL_PHRASES : list string;
  AVAILABLE_LETTERS : list string
}.

Definition module_globals : Globals := {|
  ISL_PHRASES :=
    [
     "any questions"; "are you angry"; "are you busy"; "are you hungry";
     "are you sick"; "be careful"; "can we meet tomorrow";
     "did you book tickets"; "did you finish homework";
     "do you go to office"; "do you have money";
     "do you want something to drink"; "do you want tea or coffee";
     "do you watch TV"; "dont worry"; "flower is beautiful";
     "good afternoon"; "good evening"; "good morning"; "good night";
     "good question"; "had your lunch"; "happy journey";
     "hello what is your name"; "how many people are there in your family";
     "i am a clerk"; "i am bore doing nothing"; "i am fine"; "i am sorry";
     "i am thinking"; "i am tired"; "i dont understand anything";
     "i go to a theatre"; "i love to shop";
     "i had to say something but i forgot"; "i have headache";
     "i like pink colour"; "i live in nagpur"; "lets go for lunch";
     "my mother is a homemaker"; "my name is john"; "nice to meet you";
     "no smoking please"; "open the door"; "please call me later";
     "please clean the room"; "please give me your pen";
     "please use dustbin dont throw garbage"; "please wait for sometime";
     "shall I help you"; "shall we go together tommorow";
     "sign language interpreter"; "sit down"; "stand up"; "take care";
     "there was traffic jam"; "wait I am thinking"; "what are you doing";
     "what is the problem"; "what is todays date";
     "what is your father do"; "what is your job";
     "what is your mobile number"; "what is your name"; "whats up";
     "when is your interview"; "when we will go"; "where do you stay";
     "where is the bathroom"; "where is the police station";
     "you are wrong"; "address"; "agra"; "ahemdabad"; "all"; "april";
     "assam"; "august"; "australia"; "badoda"; "banana"; "banaras";
     "banglore"; "bihar"; "bridge"; "cat"; "chandigarh"; "chennai";
     "christmas"; "church"; "clinic"; "coconut"; "crocodile"; "dasara";
     "deaf"; "december"; "deer"; "delhi"; "dollar"; "duck"; "febuary";
     "friday"; "fruits"; "glass"; "grapes"; "gujrat"; "hello"; "hindu";
     "hyderabad"; "india"; "january"; "jesus"; "job"; "july"; "june";
     "karnataka"; "kerala"; "krishna"; "litre"; "mango"; "may"; "mile";
     "monday"; "mumbai"; "museum"; "muslim"; "nagpur"; "october"; "orange";
     "pakistan"; "pass"; "police station"; "post office"; "pune"; "punjab";
     "rajasthan"; "ram"; "restaurant"; "saturday"; "september"; "shop";
     "sleep"; "southafrica"; "story"; "sunday"; "tamil nadu";
     "temperature"; "temple"; "thank"; "thursday"; "toilet"; "tomato";
     "town"; "tuesday"; "usa"; "village"; "voice"; "wednesday"; "weight";
     "welcome"; "hi"; "yourself"
    ];
  AVAILABLE_LETTERS := Py.chars "abcdefghijklmnopqrstuvwxyz"
|}.

(** Line 17: the origins the CORS middleware is set up with, read from the
    environment as it is after [load_dotenv()]. *)
Definition ALLOWED_ORIGINS (environ : string -> option string) : list string :=
  Py.split ","
    (Py.getenv environ "ALLOWED_ORIGINS"
       "http://localhost:5173,http://localhost:3000").

(** [class TextInput(BaseModel)]: [text: str = Field(..., min_length=1,
    max_length=500)]. *)
Record TextInput : Type := { text : string }.

Definition TextInput_validate (raw : string) : option TextInput :=
  if ((1 <=? String.length raw) && (String.length raw <=? 500))%nat
  then Some {| text := raw |}
  else None.

Record HTTPException : Type := { status_code : nat; detail : string }.

(** [class GifResponse(BaseModel)]; [gif_type] is its field [type]. *)
Record GifResponse : Type := {
  gif_type : string;
  src : string;
  alt : string
}.

(** [class SequenceResponse(BaseModel)]; [seq_type] is its field [type]. *)
Record SequenceResponse : Type := {
  seq_type : string;
  data : list string;
  original_text : string
}.

(** [Union[GifResponse, SequenceResponse]] *)
Inductive Response : Type :=
| Gif (r : GifResponse)
| Sequence (r : SequenceResponse).

(** Lines 148-149: the text the lookup works on. *)
Definition normalize (raw : string) : string :=
  let text := Py.strip (Py.lower raw) in
  Py.join_if (fun c => negb (Py.char_in c Py.punctuation)) text.

(** Lines 163-167: one turn of the spelling loop. *)
Definition spell_step (G : Globals) (images : list string) (char : string)
  : list string :=
  if Py.list_in char (AVAILABLE_LETTERS G)
  then images ++ ["/static/letters/" ++ char ++ ".jpg"]
  else images.

Definition process_text (G : Globals) (input_data : TextInput)
  : HTTPException + Response :=
  let text := normalize (text input_data) in
  if (text =? "")%string then
    inl {| status_code := 400;
           detail := "Text cannot be empty after processing" |}
  else if Py.list_in text (ISL_PHRASES G) then
    inr (Gif {| gif_type := "gif";
                src := "/static/gifs/" ++ text ++ ".gif";
                alt := text |})
  else
    let images := fold_left (spell_step G) (Py.chars text) [] in
    match images with
    | [] =>
        inl {| status_code := 400;
               detail := "No valid characters found to convert" |}
    | _ :: _ =>
        inr (Sequence {| seq_type := "sequence";
                         data := images;
                         original_text := text |})
    end.

(** [convert_text] awaits [process_text] on the same input. *)
Definition convert_text (G : Globals) (input_data : TextInput)
  : HTTPException + Response :=
  process_text G input_data.

(** The response model written out field by field, in declaration order. *)
Definition model_dump (r : Response) : dict :=
  match r with
  | Gif g =>
      [("type", VStr (gif_type g)); ("src", VStr (src g));
       ("alt", VStr (alt g))]
  | Sequence s =>
      [("type", VStr (seq_type s)); ("data", VList (data s));
       ("original_text", VStr (original_text s))]
  end.

Definition outcome (r : HTTPException + Response) : Outcome :=
  match r with
  | inl e => Raised (status_code e) (detail e)
  | inr resp => Returned (model_dump resp)
  end.

Definition root : dict :=
  [("message", VStr "Audio to ISL API"); ("version", VStr "1.0.0");
   ("docs", VStr "/docs"); ("health", VStr "/health")].

Definition health_check (G : Globals) : dict :=
  [("status", VStr "healthy"); ("version", VStr "1.0.0");
   ("phrases_count", VInt (List.length (ISL_PHRASES G)));
   ("letters_count", VInt (List.length (AVAILABLE_LETTERS G)))].

Definition get_available_phrases (G : Globals) : dict :=
  [("phrases", VList (Py.sorted (ISL_PHRASES G)));
   ("count", VInt (List.length (ISL_PHRASES G)))].

(** The routes of the application; a POST carries the [text] field of its
    JSON body. *)
Inductive Request : Type :=
| GET_root
| GET_health
| GET_api_phrases
| POST_process (raw : string)
| POST_api_convert (raw : string).

(** Serving one request: the globals after it, and its outcome. *)
Definition serve (G : Globals) (req : Request) : Globals * Outcome :=
  match req with
  | GET_root => (G, Returned root)
  | GET_health => (G, Returned (health_check G))
  | GET_api_phrases => (G, Returned (get_available_phrases G))
  | POST_process raw =>
      match TextInput_validate raw with
      | None => (G, Rejected)
      | Some input_data => (G, outcome (process_text G input_data))
      end
  | POST_api_convert raw =>
      match TextInput_validate raw with
      | None => (G, Rejected)
      | Some input_data => (G, outcome (convert_text G input_data))
      end
  end.

End Backend.

(** ** src/server.py *)

Module Root.

Record Globals : Type := {
  isl_gif : list string;
  arr : list string
}.

Definition module_globals : Globals := {|
  isl_gif :=
    [
     "any questions"; "are you angry"; "are you busy"; "are you hungry";
     "are you sick"; "be careful"; "can we meet tomorrow";
     "did you book tickets"; "did you finish homework";
     "do you go to office"; "do you have money";
     "do you want something to drink"; "do you want tea or coffee";
     "do you watch TV"; "dont worry"; "flower is beautiful";
     "good afternoon"; "good evening"; "good morning"; "good night";
     "good question"; "had your lunch"; "happy journey";
     "hello what is your name"; "how many people are there in your family";
     "i am a clerk"; "i am bore doing nothing"; "i am fine"; "i am sorry";
     "i am thinking"; "i am tired"; "i dont understand anything";
     "i go to a theatre"; "i love to shop";
     "i had to say something but i forgot"; "i have headache";
     "i like pink colour"; "i live in nagpur"; "lets go for lunch";
     "my mother is a homemaker"; "my name is john"; "nice to meet you";
     "no smoking please"; "open the door"; "please call me later";
     "please clean the room"; "please give me your pen";
     "please use dustbin dont throw garbage"; "please wait for sometime";
     "shall I help you"; "shall we go together tommorow";
     "sign language interpreter"; "sit down"; "stand up"; "take care";
     "there was traffic jam"; "wait I am thinking"; "what are you doing";
     "what is the problem"; "what is todays date";
     "what is your father do"; "what is your job";
     "what is your mobile number"; "what is your name"; "whats up";
     "when is your interview"; "when we will go"; "where do you stay";
     "where is the bathroom"; "where is the police station";
     "you are wrong"; "address"; "agra"; "ahemdabad"; "all"; "april";
     "assam"; "august"; "australia"; "badoda"; "banana"; "banaras";
     "banglore"; "bihar"; "bridge"; "cat"; "chandigarh"; "chennai";
     "christmas"; "church"; "clinic"; "coconut"; "crocodile"; "dasara";
     "deaf"; "december"; "deer"; "delhi"; "dollar"; "duck"; "febuary";
     "friday"; "fruits"; "glass"; "grapes"; "gujrat"; "hello"; "hindu";
     "hyderabad"; "india"; "january"; "jesus"; "job"; "july"; "karnataka";
     "kerala"; "krishna"; "litre"; "mango"; "may"; "mile"; "monday";
     "mumbai"; "museum"; "muslim"; "nagpur"; "october"; "orange";
     "pakistan"; "pass"; "police station"; "post office"; "pune"; "punjab";
     "rajasthan"; "ram"; "restaurant"; "saturday"; "september"; "shop";
     "sleep"; "southafrica"; "story"; "sunday"; "tamil nadu";
     "temperature"; "temple"; "thursday"; "toilet"; "tomato"; "town";
     "tuesday"; "usa"; "village"; "voice"; "wednesday"; "weight"
    ];
  arr := ["a"; "b"; "c"; "d"; "e"; "f"; "g"; "h"; "i"; "j"; "k"; "l"; "m";
          "n"; "o"; "p"; "q"; "r"; "s"; "t"; "u"; "v"; "w"; "x"; "y"; "z"]
|}.

(** [class TextInput(BaseModel)]: [text: str], no constraint. *)
Record TextInput : Type := { text : string }.

Definition TextInput_validate (raw : string) : option TextInput :=
  Some {| text := raw |}.

(** Lines 55-57. *)
Definition normalize (raw : string) : string :=
  let text := Py.lower raw in
  Py.join_if (fun c => negb (Py.char_in c Py.punctuation)) text.

(** Lines 69-72: one turn of the spelling loop. *)
Definition spell_step (G : Globals) (images : list string) (char : string)
  : list string :=
  if Py.list_in char (arr G)
  then images ++ ["/static/letters/" ++ char ++ ".jpg"]
  else images.

Definition process_text (G : Globals) (input_data : TextInput) : dict :=
  let text := normalize (text input_data) in
  if Py.list_in text (isl_gif G) then
    [("type", VStr "gif");
     ("src", VStr ("/static/gifs/" ++ text ++ ".gif"));
     ("alt", VStr text)]
  else
    let images := fold_left (spell_step G) (Py.chars text) [] in
    [("type", VStr "sequence");
     ("data", VList images);
     ("original_text", VStr text)].

Inductive Request : Type :=
| POST_process (raw : string).

Definition serve (G : Globals) (req : Request) : Globals * Outcome :=
  match req with
  | POST_process raw =>
      match TextInput_validate raw with
      | None => (G, Rejected)
      | Some input_data => (G, Returned (process_text G input_data))
      end
  end.

End Root.

(** ** The handlers over a store of list objects *)

(** Python lists are mutable objects shared by identity, and the tables are
    such objects, bound to module-level names.  [Backend] and [Root] pass
    the tables as values; here the same handlers run against a store, with
    each list operation of the source as a store operation, so that what a
    request leaves behind for the next one is part of the model. *)

Module Store.

Definition addr : Type := nat.

(** The list objects created so far; the object with identity [a] is the
    [a]-th of them. *)
Definition store : Type := list (list string).

Definition deref (h : store) (a : addr) : list string := nth a h [].

Fixpoint assign (a : addr) (l : list string) (h : store) : store :=
  match h, a with
  | [], _ => []
  | _ :: h', O => l :: h'
  | x :: h', S a' => x :: assign a' l h'
  end.

(** A computation that reads and updates the store. *)
Definition M (A : Type) : Type := store -> A * store.

Definition ret {A : Type} (x : A) : M A := fun h => (x, h).

Definition bind {A B : Type} (m : M A) (k : A -> M B) : M B :=
  fun h => let '(x, h1) := m h in k x h1.

(** A list display [[]] or a call of [sorted]: a new list object. *)
Definition new_list (l : list string) : M addr :=
  fun h => (List.length h, (h ++ [l])%list).

(** What a list object holds, for [len], [sorted] and serialisation. *)
Definition contents (a : addr) : M (list string) :=
  fun h => (deref h a, h).

(** [x in l] *)
Definition contains (x : string) (a : addr) : M bool :=
  fun h => (Py.list_in x (deref h a), h).

(** [l.append(x)] *)
Definition append (a : addr) (x : string) : M unit :=
  fun h => (tt, assign a (deref h a ++ [x])%list h).

(** [for x in xs: body] *)
Fixpoint for_each {A : Type} (xs : list A) (body : A -> M unit) : M unit :=
  match xs with
  | [] => ret tt
  | x :: xs' => bind (body x) (fun _ => for_each xs' body)
  end.

(** The second store holds every object of the first, unchanged, and
    possibly newer ones. *)
Definition extends (h h' : store) : Prop :=
  exists newer : store, h' = (h ++ newer)%list.

End Store.

Notation "x <- m ;; k" := (Store.bind m (fun x => k))
  (at level 61, m at next level, right associativity).

(** [src/backend/server.py] over the store. *)

Module BackendStore.

(** The list objects the module-level names are bound to once the module is
    loaded; no handler rebinds a name. *)
Definition ISL_PHRASES : Store.addr := 0.
Definition AVAILABLE_LETTERS : Store.addr := 1.

Definition start : Store.store :=
  [Backend.ISL_PHRASES Backend.module_globals;
   Backend.AVAILABLE_LETTERS Backend.module_globals].

(** The tables as a handler running on store [h] finds them. *)
Definition tables (h : Store.store) : Backend.Globals :=
  {| Backend.ISL_PHRASES := Store.deref h ISL_PHRASES;
     Backend.AVAILABLE_LETTERS := Store.deref h AVAILABLE_LETTERS |}.

Definition process_text (input_data : Backend.TextInput)
  : Store.M (Backend.HTTPException + Backend.Response) :=
  let text := Backend.normalize (Backend.text input_data) in
  if (text =? "")%string then
    Store.ret
      (inl {| Backend.status_code := 400;
              Backend.detail := "Text cannot be empty after processing" |})
  else
    known <- Store.contains text ISL_PHRASES ;;
    if known then
      Store.ret
        (inr (Backend.Gif {| Backend.gif_type := "gif";
                             Backend.src := "/static/gifs/" ++ text ++ ".gif";
                             Backend.alt := text |}))
    else
      images <- Store.new_list [] ;;
      _ <- Store.for_each (Py.chars text)
             (fun char =>
                found <- Store.contains char AVAILABLE_LETTERS ;;
                if found
                then Store.append images ("/static/letters/" ++ char ++ ".jpg")
                else Store.ret tt) ;;
      data <- Store.contents images ;;
      match data with
      | [] =>
          Store.ret
            (inl {| Backend.status_code := 400;
                    Backend.detail :=
                      "No valid characters found to convert" |})
      | _ :: _ =>
          Store.ret
            (inr (Backend.Sequence {| Backend.seq_type := "sequence";
                                      Backend.data := data;
                                      Backend.original_text := text |}))
      end.

Definition convert_text (input_data : Backend.TextInput)
  : Store.M (Backend.HTTPException + Backend.Response) :=
  process_text input_data.

Definition health_check : Store.M dict :=
  phrases <- Store.contents ISL_PHRASES ;;
  letters <- Store.contents AVAILABLE_LETTERS ;;
  Store.ret
    [("status", VStr "healthy"); ("version", VStr "1.0.0");
     ("phrases_count", VInt (List.length phrases));
     ("letters_count", VInt (List.length letters))].

Definition get_available_phrases : Store.M dict :=
  phrases <- Store.contents ISL_PHRASES ;;
  in_order <- Store.new_list (Py.sorted phrases) ;;
  listed <- Store.contents in_order ;;
  counted <- Store.contents ISL_PHRASES ;;
  Store.ret
    [("phrases", VList listed); ("count", VInt (List.length counted))].

Definition serve (req : Backend.Request) : Store.M Outcome :=
  match req with
  | Backend.GET_root => Store.ret (Returned Backend.root)
  | Backend.GET_health =>
      body <- health_check ;; Store.ret (Returned body)
  | Backend.GET_api_phrases =>
      body <- get_available_phrases ;; Store.ret (Returned body)
  | Backend.POST_process raw =>
      match Backend.TextInput_validate raw with
      | None => Store.ret Rejected
      | Some input_data =>
          r <- process_text input_data ;; Store.ret (Backend.outcome r)
      end
  | Backend.POST_api_convert raw =>
      match Backend.TextInput_validate raw with
      | None => Store.ret Rejected
      | Some input_data =>
          r <- convert_text input_data ;; Store.ret (Backend.outcome r)
      end
  end.

(** Serving a history of requests, oldest first. *)
Fixpoint serve_all (reqs : list Backend.Request) : Store.M (list Outcome) :=
  match reqs with
  | [] => Store.ret []
  | req :: reqs' =>
      o <- serve req ;; os <- serve_all reqs' ;; Store.ret (o :: os)
  end.

End BackendStore.

(** [src/server.py] over the store. *)

Module RootStore.

Definition isl_gif : Store.addr := 0.
Definition arr : Store.addr := 1.

Definition start : Store.store :=
  [Root.isl_gif Root.module_globals; Root.arr Root.module_globals].

Definition tables (h : Store.store) : Root.Globals :=
  {| Root.isl_gif := Store.deref h isl_gif;
     Root.arr := Store.deref h arr |}.

Definition process_text (input_data : Root.TextInput) : Store.M dict :=
  let text := Root.normalize (Root.text input_data) in
  known <- Store.contains text isl_gif ;;
  if known then
    Store.ret
      [("type", VStr "gif");
       ("src", VStr ("/static/gifs/" ++ text ++ ".gif"));
       ("alt", VStr text)]
  else
    images <- Store.new_list [] ;;
    _ <- Store.for_each (Py.chars text)
           (fun char =>
              found <- Store.contains char arr ;;
              if found
              then Store.append images ("/static/letters/" ++ char ++ ".jpg")
              else Store.ret tt) ;;
    data <- Store.contents images ;;
    Store.ret
      [("type", VStr "sequence");
       ("data", VList data);
       ("original_text", VStr text)].

Definition serve (req : Root.Request) : Store.M Outcome :=
  match req with
  | Root.POST_process raw =>
      match Root.TextInput_validate raw with
      | None => Store.ret Rejected
      | Some input_data =>
          body <- process_text input_data ;; Store.ret (Returned body)
      end
  end.

Fixpoint serve_all (reqs : list Root.Request) : Store.M (list Outcome) :=
  match reqs with
  | [] => Store.ret []
  | req :: reqs' =>
      o <- serve req ;; os <- serve_all reqs' ;; Store.ret (o :: os)
  end.

End RootStore.

(** ** Vocabulary of the specification *)

Module Spec.

(** The characters a-z. *)
Definition is_az (c : ascii) : bool := Py.between 97 122 c.

(** The a-z characters of a text, in the order they occur. *)
Definition az_chars (s : string) : list ascii :=
  filter is_az (list_ascii_of_string s).

(** The asset of a letter and of a phrase. *)
Definition letter_path (c : ascii) : string :=
  "/static/letters/" ++ Py.chr c ++ ".jpg".

Definition gif_path (phrase : string) : string :=
  "/static/gifs/" ++ phrase ++ ".gif".

(** Every character of the text satisfies [P]. *)
Fixpoint all_chars (P : ascii -> bool) (s : string) : bool :=
  match s with
  | EmptyString => true
  | String c s' => P c && all_chars P s'
  end.

(** The text contains a character that lowercasing changes: one of A-Z or
    a Latin-1 capital. *)
Definition has_upper (s : string) : bool :=
  negb (all_chars (fun c => negb (Py.is_upper c)) s).

(** A character with no letter asset, whatever its case: punctuation,
    whitespace, digits and every other character outside A-Z and a-z. *)
Definition unsupported (c : ascii) : bool :=
  Py.char_in c Py.punctuation || Py.is_space c
  || negb (is_az (Py.lower_char c)).

(** The text has no whitespace at either end. *)
Definition trimmed (s : string) : Prop := Py.strip s = s.

Definition not_punctuation (c : ascii) : bool :=
  negb (Py.char_in c Py.punctuation).

(** Lowercase, then remove punctuation: the form under which two texts
    are equal "case-insensitively and punctuation-insensitively". *)
Definition fold_case_punct (s : string) : string :=
  Py.join_if not_punctuation (Py.lower s).

(** The two shapes of a response body. *)
Definition is_gif_body (d : dict) : Prop :=
  exists src alt : string,
    d = [("type", VStr "gif"); ("src", VStr src); ("alt", VStr alt)].

Definition is_sequence_body (d : dict) : Prop :=
  exists (data : list string) (original_text : string),
    d = [("type", VStr "sequence"); ("data", VList data);
         ("original_text", VStr original_text)].

(** No character of the text is in the letter table. *)
Definition no_letter_asset (letters : list string) (s : string) : bool :=
  forallb (fun char => negb (Py.list_in char letters)) (Py.chars s).

(** The text has an a-z character. *)
Definition has_az (p : string) : bool :=
  match az_chars p with [] => false | _ :: _ => true end.

(** A table entry that is trimmed and free of punctuation. *)
Definition plain_entry (p : string) : bool :=
  ((Py.strip p =? p) && (Py.join_if not_punctuation p =? p))%string.

(** The asset path the spelling loop builds for a character. *)
Definition letter_asset (char : string) : string :=
  "/static/letters/" ++ char ++ ".jpg".

(** The characters of a text that are in a letter table, in order. *)
Definition table_chars (letters : list string) (s : string) : list string :=
  filter (fun char => Py.list_in char letters) (Py.chars s).

(** The text a backend response echoes: [alt] or [original_text]. *)
Definition echoed (r : Backend.Response) : string :=
  match r with
  | Backend.Gif g => Backend.alt g
  | Backend.Sequence q => Backend.original_text q
  end.

(** No string occurs twice in the list. *)
Fixpoint nodupb (l : list string) : bool :=
  match l with
  | [] => true
  | x :: l' => negb (Py.list_in x l') && nodupb l'
  end.

(** String order, as a relation. *)
Definition str_le (a b : string) : Prop := (a <=? b)%string = true.

(** An environment with the single variable [key] set to [v]. *)
Definition environ_with (key v : string) : string -> option string :=
  fun k => if (k =? key)%string then Some v else None.

(** A text of [n] copies of the letter a. *)
Fixpoint a_run (n : nat) : string :=
  match n with
  | O => EmptyString
  | S n' => String "a" (a_run n')
  end.

End Spec.

(** Case analysis over the 256 code points of the model. *)
Ltac each_char c :=
  destruct c as [[] [] [] [] [] [] [] []]; vm_compute;
  try reflexivity; try (intros; discriminate).

(** ** The spec's examples, run on the code *)

Example lower_ex : Py.lower "Hello, TV!" = "hello, tv!".
Proof. reflexivity. Qed.

Example strip_ex : Py.strip "  a b  " = "a b".
Proof. reflexivity. Qed.

Example punctuation_ex :
  String.length Py.punctuation = 32 /\ Py.char_in "034" Py.punctuation = true.
Proof. split; reflexivity. Qed.

Example sorted_ex :
  Py.sorted ["hi"; "cat"; "do you watch TV"; "Cat"; "cat"]
  = ["Cat"; "cat"; "cat"; "do you watch TV"; "hi"].
Proof. reflexivity. Qed.

Example backend_hello :
  Backend.process_text Backend.module_globals {| Backend.text := "Hello!" |}
  = inr (Backend.Gif {| Backend.gif_type := "gif";
                        Backend.src := "/static/gifs/hello.gif";
                        Backend.alt := "hello" |}).
Proof. vm_compute. reflexivity. Qed.

Example backend_xyz123 :
  Backend.process_text Backend.module_globals {| Backend.text := "xyz123" |}
  = inr (Backend.Sequence
           {| Backend.seq_type := "sequence";
              Backend.data := ["/static/letters/x.jpg";
                               "/static/letters/y.jpg";
                               "/static/letters/z.jpg"];
              Backend.original_text := "xyz123" |}).
Proof. vm_compute. reflexivity. Qed.

Example backend_bangs :
  Backend.process_text Backend.module_globals {| Backend.text := "!!!" |}
  = inl {| Backend.status_code := 400;
           Backend.detail := "Text cannot be empty after processing" |}.
Proof. vm_compute. reflexivity. Qed.

Example root_bangs :
  Root.process_text Root.module_globals {| Root.text := "!!!" |}
  = [("type", VStr "sequence"); ("data", VList []);
     ("original_text", VStr "")].
Proof. vm_compute. reflexivity. Qed.

(** ** Facts about characters *)

(** [string.punctuation] is the ASCII range without digits, letters,
    controls and the space. *)
Lemma punctuation_codes (c : ascii) :
  Py.char_in c Py.punctuation
  = Py.between 33 47 c || Py.between 58 64 c || Py.between 91 96 c
    || Py.between 123 126 c.
Proof. each_char c. Qed.

Lemma lower_char_not_upper (c : ascii) :
  Py.is_upper (Py.lower_char c) = false.
Proof. each_char c. Qed.

Lemma lower_char_fixed (c : ascii) :
  Py.is_upper c = false -> Py.lower_char c = c.
Proof. unfold Py.lower_char. intros ->. reflexivity. Qed.

Lemma space_not_punctuation (c : ascii) :
  Py.is_space c = true -> Py.char_in c Py.punctuation = false.
Proof. each_char c. Qed.

Lemma az_not_space (c : ascii) :
  Spec.is_az c = true -> Py.is_space c = false.
Proof. each_char c. Qed.

Lemma az_not_punctuation (c : ascii) :
  Spec.is_az c = true -> Py.char_in c Py.punctuation = false.
Proof. each_char c. Qed.

Lemma az_not_upper (c : ascii) :
  Spec.is_az c = true -> Py.is_upper c = false.
Proof. each_char c. Qed.

Lemma backend_letter_is_az (c : ascii) :
  Py.list_in (Py.chr c) (Backend.AVAILABLE_LETTERS Backend.module_globals)
  = Spec.is_az c.
Proof. each_char c. Qed.

Lemma root_letter_is_az (c : ascii) :
  Py.list_in (Py.chr c) (Root.arr Root.module_globals) = Spec.is_az c.
Proof. each_char c. Qed.

Lemma unsupported_not_renderable (c : ascii) :
  Spec.unsupported c = true -> Spec.is_az (Py.lower_char c) = false.
Proof. each_char c. Qed.

(** ** Facts about strings *)

Section AllChars.

Variable P : ascii -> bool.

Lemma all_chars_join_if (keep : ascii -> bool) (s : string) :
  Spec.all_chars P s = true -> Spec.all_chars P (Py.join_if keep s) = true.
Proof.
  induction s as [|c s IH]; simpl; [reflexivity|].
  intros H. apply andb_true_iff in H as [Hc Hs].
  destruct (keep c); simpl; [rewrite Hc|]; auto.
Qed.

Lemma all_chars_lstrip (s : string) :
  Spec.all_chars P s = true -> Spec.all_chars P (Py.lstrip s) = true.
Proof.
  induction s as [|c s IH]; simpl; [reflexivity|].
  intros H. destruct (Py.is_space c); [|exact H].
  apply andb_true_iff in H as [_ Hs]. auto.
Qed.

Lemma all_chars_rstrip (s : string) :
  Spec.all_chars P s = true -> Spec.all_chars P (Py.rstrip s) = true.
Proof.
  induction s as [|c s IH]; simpl; [reflexivity|].
  intros H. apply andb_true_iff in H as [Hc Hs]. specialize (IH Hs).
  destruct (Py.rstrip s) as [|d r].
  - destruct (Py.is_space c); simpl; [reflexivity|].
    rewrite Hc. reflexivity.
  - change (P c && Spec.all_chars P (String d r) = true).
    rewrite Hc, IH. reflexivity.
Qed.

Lemma all_chars_strip (s : string) :
  Spec.all_chars P s = true -> Spec.all_chars P (Py.strip s) = true.
Proof.
  intros H. unfold Py.strip. now apply all_chars_rstrip, all_chars_lstrip.
Qed.

Lemma join_if_all (s : string) :
  Spec.all_chars P s = true -> Py.join_if P s = s.
Proof.
  induction s as [|c s IH]; simpl; [reflexivity|].
  intros H. apply andb_true_iff in H as [Hc Hs].
  rewrite Hc, IH by assumption. reflexivity.
Qed.

Lemma all_chars_of_join_if (s : string) :
  Spec.all_chars P (Py.join_if P s) = true.
Proof.
  induction s as [|c s IH]; simpl; [reflexivity|].
  destruct (P c) eqn:Hc; simpl; [rewrite Hc|]; auto.
Qed.

End AllChars.

Lemma join_if_idempotent (keep : ascii -> bool) (s : string) :
  Py.join_if keep (Py.join_if keep s) = Py.join_if keep s.
Proof. apply join_if_all, all_chars_of_join_if. Qed.

Lemma lower_no_upper (s : string) :
  Spec.all_chars (fun c => negb (Py.is_upper c)) (Py.lower s) = true.
Proof.
  induction s as [|c s IH]; simpl; [reflexivity|].
  rewrite lower_char_not_upper, IH. reflexivity.
Qed.

Lemma lower_fixed (s : string) :
  Spec.all_chars (fun c => negb (Py.is_upper c)) s = true -> Py.lower s = s.
Proof.
  induction s as [|c s IH]; simpl; [reflexivity|].
  intros H. apply andb_true_iff in H as [Hc Hs].
  apply negb_true_iff in Hc.
  rewrite (lower_char_fixed c Hc), IH by assumption. reflexivity.
Qed.


Lemma list_in_In (x : string) (l : list string) :
  Py.list_in x l = true <-> In x l.
Proof.
  unfold Py.list_in. rewrite existsb_exists. split.
  - intros (y & Hy & E). apply String.eqb_eq in E. now subst.
  - intros H. exists x. split; [assumption | apply String.eqb_refl].
Qed.

Lemma list_in_not_In (x : string) (l : list string) :
  Py.list_in x l = false <-> ~ In x l.
Proof.
  rewrite <- list_in_In. destruct (Py.list_in x l); split; intros H;
    try reflexivity; try discriminate; try (intros E; discriminate).
  now contradiction H.
Qed.

Lemma az_chars_cons (c : ascii) (s : string) :
  Spec.az_chars (String c s)
  = if Spec.is_az c then c :: Spec.az_chars s else Spec.az_chars s.
Proof. reflexivity. Qed.

Lemma az_chars_none (s : string) :
  Spec.all_chars (fun c => negb (Spec.is_az c)) s = true ->
  Spec.az_chars s = [].
Proof.
  induction s as [|c s IH]; [reflexivity|].
  cbn [Spec.all_chars]. intros H. apply andb_true_iff in H as [Hc Hs].
  rewrite az_chars_cons. apply negb_true_iff in Hc. rewrite Hc. auto.
Qed.

Lemma backend_no_letter_asset (s : string) :
  Spec.no_letter_asset (Backend.AVAILABLE_LETTERS Backend.module_globals) s
  = true
  <-> Spec.az_chars s = [].
Proof.
  unfold Spec.no_letter_asset.
  induction s as [|c s IH]; [split; reflexivity|].
  cbn [Py.chars forallb]. rewrite az_chars_cons, backend_letter_is_az.
  destruct (Spec.is_az c); cbn [negb andb]; [|exact IH].
  split; discriminate.
Qed.

Lemma lower_unsupported (s : string) :
  Spec.all_chars Spec.unsupported s = true ->
  Spec.all_chars (fun c => negb (Spec.is_az c)) (Py.lower s) = true.
Proof.
  induction s as [|c s IH]; [reflexivity|].
  cbn [Spec.all_chars Py.lower]. intros H.
  apply andb_true_iff in H as [Hc Hs].
  rewrite (unsupported_not_renderable c Hc), IH by assumption. reflexivity.
Qed.

(** ** Trimming and punctuation removal *)

Lemma lstrip_length (s : string) :
  String.length (Py.lstrip s) <= String.length s.
Proof.
  induction s as [|c s IH]; cbn; [lia|].
  destruct (Py.is_space c); cbn; lia.
Qed.

Lemma rstrip_length (s : string) :
  String.length (Py.rstrip s) <= String.length s.
Proof.
  induction s as [|c s IH]; cbn; [lia|].
  destruct (Py.rstrip s); [destruct (Py.is_space c)|]; cbn in *; lia.
Qed.

Lemma lstrip_fixed_or_shorter (s : string) :
  Py.lstrip s = s \/ String.length (Py.lstrip s) < String.length s.
Proof.
  destruct s as [|c s]; cbn; [now left|].
  destruct (Py.is_space c); [right | now left].
  pose proof (lstrip_length s). lia.
Qed.

Lemma strip_fixed_parts (s : string) :
  Py.strip s = s -> Py.lstrip s = s /\ Py.rstrip s = s.
Proof.
  unfold Py.strip. intros H.
  destruct (lstrip_fixed_or_shorter s) as [E | Hlt].
  - rewrite E in H. now split.
  - pose proof (rstrip_length (Py.lstrip s)) as Hle.
    rewrite H in Hle. lia.
Qed.

Section KeepsSpaces.

(** A filter that keeps every whitespace character, as the removal of
    punctuation does. *)
Variable keep : ascii -> bool.
Hypothesis keep_space : forall c, Py.is_space c = true -> keep c = true.

Lemma join_if_lstrip (s : string) :
  Py.lstrip (Py.join_if keep s) = Py.join_if keep s ->
  Py.join_if keep (Py.lstrip s) = Py.join_if keep s.
Proof.
  destruct s as [|c s]; [reflexivity|].
  cbn [Py.lstrip]. destruct (Py.is_space c) eqn:Hc; [|reflexivity].
  cbn [Py.join_if]. rewrite (keep_space c Hc). cbn [Py.lstrip].
  rewrite Hc. intros H.
  pose proof (lstrip_length (Py.join_if keep s)) as Hle.
  rewrite H in Hle. cbn in Hle. lia.
Qed.

Lemma join_if_rstrip (s : string) :
  Py.rstrip (Py.join_if keep s) = Py.join_if keep s ->
  Py.join_if keep (Py.rstrip s) = Py.join_if keep s.
Proof.
  induction s as [|c s IH]; [reflexivity|].
  cbn [Py.join_if Py.rstrip]. destruct (keep c) eqn:Hk.
  - cbn [Py.rstrip]. intros H.
    assert (Hfix : Py.rstrip (Py.join_if keep s) = Py.join_if keep s
                   /\ (Py.join_if keep s = "" -> Py.is_space c = false)).
    { destruct (Py.rstrip (Py.join_if keep s)) as [|d r] eqn:Hr.
      - destruct (Py.is_space c); [discriminate H|].
        injection H as H. split; [now symmetry | reflexivity].
      - injection H as H. split; [exact H|].
        intros E. rewrite E in H. discriminate H. }
    destruct Hfix as [Hfix Hsp]. specialize (IH Hfix).
    destruct (Py.rstrip s) as [|d r].
    + cbn in IH. rewrite (Hsp (eq_sym IH)). cbn. rewrite Hk, <- IH.
      reflexivity.
    + cbn [Py.join_if]. rewrite Hk. cbn [Py.join_if] in IH.
      now rewrite IH.
  - intros H. specialize (IH H).
    assert (Hc : Py.is_space c = false).
    { destruct (Py.is_space c) eqn:Hc; [|reflexivity].
      rewrite (keep_space c Hc) in Hk. discriminate Hk. }
    destruct (Py.rstrip s) as [|d r].
    + rewrite Hc. cbn. rewrite Hk. exact IH.
    + cbn [Py.join_if]. rewrite Hk. exact IH.
Qed.

(** When the filtered text has no whitespace at its ends, trimming before
    filtering changes nothing. *)
Lemma join_if_strip (s : string) :
  Spec.trimmed (Py.join_if keep s) ->
  Py.join_if keep (Py.strip s) = Py.join_if keep s.
Proof.
  intros H. apply strip_fixed_parts in H as [Hl Hr].
  pose proof (join_if_lstrip s Hl) as El.
  unfold Py.strip. rewrite <- El. apply join_if_rstrip.
  rewrite El. exact Hr.
Qed.

End KeepsSpaces.

Lemma not_punctuation_space (c : ascii) :
  Py.is_space c = true -> Spec.not_punctuation c = true.
Proof.
  intros H. unfold Spec.not_punctuation.
  now rewrite (space_not_punctuation c H).
Qed.

(** On inputs whose case- and punctuation-folded form is trimmed, the
    backend's normalizer computes that form, as the root's does on every
    input. *)
Lemma backend_normalize_fold (s : string) :
  Spec.trimmed (Spec.fold_case_punct s) ->
  Backend.normalize s = Spec.fold_case_punct s.
Proof.
  intros H. unfold Backend.normalize. cbv zeta.
  exact (join_if_strip Spec.not_punctuation not_punctuation_space
           (Py.lower s) H).
Qed.

Lemma root_normalize_fold (s : string) :
  Root.normalize s = Spec.fold_case_punct s.
Proof. reflexivity. Qed.

(** ** The normalizers *)

Lemma backend_normalize_no_upper (s : string) :
  Spec.all_chars (fun c => negb (Py.is_upper c)) (Backend.normalize s) = true.
Proof.
  unfold Backend.normalize.
  apply all_chars_join_if, all_chars_strip, lower_no_upper.
Qed.

Lemma root_normalize_no_upper (s : string) :
  Spec.all_chars (fun c => negb (Py.is_upper c)) (Root.normalize s) = true.
Proof.
  unfold Root.normalize. apply all_chars_join_if, lower_no_upper.
Qed.



(** C5, on the code: the backend's normalization is not idempotent.  It
    trims the text and only then removes the punctuation, so whitespace that
    stood next to punctuation at an end of the text is left in place: '! a'
    normalizes to ' a', and ' a' to 'a'.  The trimming the handler sets out
    to do is thereby undone for the lookup: 'hello!' gets the gif of 'hello',
    'hello !' is spelled out and echoed with its trailing space. *)
Lemma normalize_not_idempotent :
  Backend.TextInput_validate "! a" = Some {| Backend.text := "! a" |}
  /\ Backend.normalize "! a" = " a"
  /\ Backend.normalize (Backend.normalize "! a") = "a"
  /\ Backend.normalize (Backend.normalize "! a") <> Backend.normalize "! a"
  /\ Backend.process_text Backend.module_globals
       {| Backend.text := "hello!" |}
     = inr (Backend.Gif {| Backend.gif_type := "gif";
                           Backend.src := "/static/gifs/hello.gif";
                           Backend.alt := "hello" |})
  /\ Backend.process_text Backend.module_globals
       {| Backend.text := "hello !" |}
     = inr (Backend.Sequence
              {| Backend.seq_type := "sequence";
                 Backend.data :=
                   map Spec.letter_path (list_ascii_of_string "hello");
                 Backend.original_text := "hello " |}).
Proof.
  repeat split; try reflexivity; try (vm_compute; reflexivity).
  vm_compute. discriminate.
Qed.

(** ** The spelling loop *)

(** The loop of the backend appends, to the images it starts from, the asset
    of each a-z character of the text, in order. *)
Lemma backend_spell (text : string) (images : list string) :
  fold_left (Backend.spell_step Backend.module_globals) (Py.chars text) images
  = (images ++ map Spec.letter_path (Spec.az_chars text))%list.
Proof.
  revert images. induction text as [|c text IH]; intros images.
  - cbn. now rewrite app_nil_r.
  - cbn [Py.chars fold_left]. rewrite IH, az_chars_cons.
    unfold Backend.spell_step. rewrite backend_letter_is_az.
    destruct (Spec.is_az c); [|reflexivity].
    rewrite <- app_assoc. reflexivity.
Qed.

Lemma root_spell (text : string) (images : list string) :
  fold_left (Root.spell_step Root.module_globals) (Py.chars text) images
  = (images ++ map Spec.letter_path (Spec.az_chars text))%list.
Proof.
  revert images. induction text as [|c text IH]; intros images.
  - cbn. now rewrite app_nil_r.
  - cbn [Py.chars fold_left]. rewrite IH, az_chars_cons.
    unfold Root.spell_step. rewrite root_letter_is_az.
    destruct (Spec.is_az c); [|reflexivity].
    rewrite <- app_assoc. reflexivity.
Qed.

(** ** The phrase tables *)

Lemma has_az_spec (p : string) : Spec.has_az p = true <-> Spec.az_chars p <> [].
Proof.
  unfold Spec.has_az. destruct (Spec.az_chars p); split; intros H;
    try discriminate; try reflexivity. now contradiction H.
Qed.

Lemma backend_phrases_have_az (p : string) :
  In p (Backend.ISL_PHRASES Backend.module_globals) -> Spec.az_chars p <> [].
Proof.
  intros H. apply has_az_spec. revert p H. apply forallb_forall.
  vm_compute. reflexivity.
Qed.

Lemma root_phrases_have_az (p : string) :
  In p (Root.isl_gif Root.module_globals) -> Spec.az_chars p <> [].
Proof.
  intros H. apply has_az_spec. revert p H. apply forallb_forall.
  vm_compute. reflexivity.
Qed.

Lemma az_chars_nonempty (s : string) :
  Spec.az_chars s <> [] -> (s =? "")%string = false.
Proof. destruct s; [intros H; now contradiction H | reflexivity]. Qed.

(** ** What [process_text] computes *)

(** The backend handler, with its loop replaced by what the loop computes. *)
Lemma backend_process_text_eq (i : Backend.TextInput) :
  Backend.process_text Backend.module_globals i
  = let t := Backend.normalize (Backend.text i) in
    if (t =? "")%string then
      inl {| Backend.status_code := 400;
             Backend.detail := "Text cannot be empty after processing" |}
    else if Py.list_in t (Backend.ISL_PHRASES Backend.module_globals) then
      inr (Backend.Gif {| Backend.gif_type := "gif";
                          Backend.src := Spec.gif_path t;
                          Backend.alt := t |})
    else
      match Spec.az_chars t with
      | [] =>
          inl {| Backend.status_code := 400;
                 Backend.detail := "No valid characters found to convert" |}
      | _ :: _ =>
          inr (Backend.Sequence
                 {| Backend.seq_type := "sequence";
                    Backend.data := map Spec.letter_path (Spec.az_chars t);
                    Backend.original_text := t |})
      end.
Proof.
  unfold Backend.process_text. cbv zeta.
  rewrite backend_spell. cbn [app].
  destruct (Spec.az_chars (Backend.normalize (Backend.text i)));
    reflexivity.
Qed.

Lemma root_process_text_eq (i : Root.TextInput) :
  Root.process_text Root.module_globals i
  = let t := Root.normalize (Root.text i) in
    if Py.list_in t (Root.isl_gif Root.module_globals) then
      [("type", VStr "gif"); ("src", VStr (Spec.gif_path t));
       ("alt", VStr t)]
    else
      [("type", VStr "sequence");
       ("data", VList (map Spec.letter_path (Spec.az_chars t)));
       ("original_text", VStr t)].
Proof.
  unfold Root.process_text. cbv zeta. rewrite root_spell. reflexivity.
Qed.

(** C2: an input whose normalized text is not a phrase and has an a-z
    character yields a sequence result whose assets are the letter paths of
    the a-z characters of the normalized text, one each, in order; in both
    deployments. *)
Theorem spells_unmatched_text :
  (forall i : Backend.TextInput,
     let t := Backend.normalize (Backend.text i) in
     ~ In t (Backend.ISL_PHRASES Backend.module_globals) ->
     Spec.az_chars t <> [] ->
     Backend.process_text Backend.module_globals i
     = inr (Backend.Sequence
              {| Backend.seq_type := "sequence";
                 Backend.data := map Spec.letter_path (Spec.az_chars t);
                 Backend.original_text := t |}))
  /\ (forall i : Root.TextInput,
        let t := Root.normalize (Root.text i) in
        ~ In t (Root.isl_gif Root.module_globals) ->
        Spec.az_chars t <> [] ->
        Root.process_text Root.module_globals i
        = [("type", VStr "sequence");
           ("data", VList (map Spec.letter_path (Spec.az_chars t)));
           ("original_text", VStr t)]).
Proof.
  split; intros i t Hphrase Haz.
  - rewrite backend_process_text_eq. fold t. cbv zeta.
    rewrite (az_chars_nonempty t Haz).
    apply list_in_not_In in Hphrase. rewrite Hphrase.
    destruct (Spec.az_chars t); [now contradiction Haz | reflexivity].
  - rewrite root_process_text_eq. fold t. cbv zeta.
    apply list_in_not_In in Hphrase. rewrite Hphrase. reflexivity.
Qed.

Lemma spells_unmatched_text_witness :
  Backend.process_text Backend.module_globals {| Backend.text := "xyz123" |}
  = inr (Backend.Sequence
           {| Backend.seq_type := "sequence";
              Backend.data := ["/static/letters/x.jpg";
                               "/static/letters/y.jpg";
                               "/static/letters/z.jpg"];
              Backend.original_text := "xyz123" |})
  /\ Root.process_text Root.module_globals {| Root.text := "I'm OK" |}
     = [("type", VStr "sequence");
        ("data", VList ["/static/letters/i.jpg"; "/static/letters/m.jpg";
                        "/static/letters/o.jpg"; "/static/letters/k.jpg"]);
        ("original_text", VStr "im ok")].
Proof.
  split.
  - apply (proj1 spells_unmatched_text {| Backend.text := "xyz123" |}).
    + apply list_in_not_In. vm_compute. reflexivity.
    + vm_compute. discriminate.
  - apply (proj2 spells_unmatched_text {| Root.text := "I'm OK" |}).
    + apply list_in_not_In. vm_compute. reflexivity.
    + vm_compute. discriminate.
Defined.

(** ** Exact match *)

Lemma backend_phrase_not_empty (t : string) :
  In t (Backend.ISL_PHRASES Backend.module_globals) -> (t =? "")%string = false.
Proof. intros H. now apply az_chars_nonempty, backend_phrases_have_az. Qed.

(** C4: when the normalized text is an entry of the phrase table the result
    is the gif result of that entry, also when each of its characters has a
    letter asset; when it is no entry, no gif result is returned, whatever
    phrases it contains or resembles.  In both deployments. *)
Theorem exact_match_first :
  (forall i : Backend.TextInput,
     let t := Backend.normalize (Backend.text i) in
     (In t (Backend.ISL_PHRASES Backend.module_globals) ->
      Backend.process_text Backend.module_globals i
      = inr (Backend.Gif {| Backend.gif_type := "gif";
                            Backend.src := Spec.gif_path t;
                            Backend.alt := t |}))
     /\ (~ In t (Backend.ISL_PHRASES Backend.module_globals) ->
         forall r, Backend.process_text Backend.module_globals i
                   <> inr (Backend.Gif r)))
  /\ (forall i : Root.TextInput,
        let t := Root.normalize (Root.text i) in
        (In t (Root.isl_gif Root.module_globals) ->
         Root.process_text Root.module_globals i
         = [("type", VStr "gif"); ("src", VStr (Spec.gif_path t));
            ("alt", VStr t)])
        /\ (~ In t (Root.isl_gif Root.module_globals) ->
            ~ Spec.is_gif_body (Root.process_text Root.module_globals i))).
Proof.
  split; intros i t; split; intros H.
  - rewrite backend_process_text_eq. fold t. cbv zeta.
    rewrite (backend_phrase_not_empty t H).
    apply list_in_In in H. rewrite H. reflexivity.
  - intros r. rewrite backend_process_text_eq. fold t. cbv zeta.
    apply list_in_not_In in H. rewrite H.
    destruct (t =? "")%string; [discriminate|].
    destruct (Spec.az_chars t); discriminate.
  - rewrite root_process_text_eq. fold t. cbv zeta.
    apply list_in_In in H. rewrite H. reflexivity.
  - rewrite root_process_text_eq. fold t. cbv zeta.
    apply list_in_not_In in H. rewrite H.
    intros (s & a & E). discriminate E.
Qed.

Lemma exact_match_first_witness :
  Backend.process_text Backend.module_globals {| Backend.text := " Cat. " |}
  = inr (Backend.Gif {| Backend.gif_type := "gif";
                        Backend.src := "/static/gifs/cat.gif";
                        Backend.alt := "cat" |})
  /\ (forall r,
        Backend.process_text Backend.module_globals
          {| Backend.text := "good morning all" |}
        <> inr (Backend.Gif r))
  /\ Root.process_text Root.module_globals {| Root.text := "Good Morning!" |}
     = [("type", VStr "gif"); ("src", VStr "/static/gifs/good morning.gif");
        ("alt", VStr "good morning")]
  /\ ~ Spec.is_gif_body
         (Root.process_text Root.module_globals {| Root.text := "cats" |}).
Proof.
  split; [|split; [|split]].
  - apply (proj1 (proj1 exact_match_first {| Backend.text := " Cat. " |})).
    apply list_in_In. vm_compute. reflexivity.
  - apply (proj2 (proj1 exact_match_first
                    {| Backend.text := "good morning all" |})).
    apply list_in_not_In. vm_compute. reflexivity.
  - apply (proj1 (proj2 exact_match_first {| Root.text := "Good Morning!" |})).
    apply list_in_In. vm_compute. reflexivity.
  - apply (proj2 (proj2 exact_match_first {| Root.text := "cats" |})).
    apply list_in_not_In. vm_compute. reflexivity.
Defined.

(** ** Entries written in lowercase *)

Lemma plain_entry_spec (p : string) :
  Spec.plain_entry p = true ->
  Spec.trimmed p /\ Py.join_if Spec.not_punctuation p = p.
Proof.
  unfold Spec.plain_entry, Spec.trimmed. intros H.
  apply andb_true_iff in H as [H1 H2].
  now apply String.eqb_eq in H1, H2.
Qed.

Lemma backend_entries_plain (p : string) :
  In p (Backend.ISL_PHRASES Backend.module_globals) -> Spec.plain_entry p = true.
Proof. revert p. apply forallb_forall. vm_compute. reflexivity. Qed.

Lemma root_entries_plain (p : string) :
  In p (Root.isl_gif Root.module_globals) -> Spec.plain_entry p = true.
Proof. revert p. apply forallb_forall. vm_compute. reflexivity. Qed.

Lemma fold_case_punct_plain (p : string) :
  Spec.plain_entry p = true -> Spec.has_upper p = false ->
  Spec.fold_case_punct p = p.
Proof.
  intros Hp Hup. apply plain_entry_spec in Hp as [_ Hp].
  unfold Spec.fold_case_punct. unfold Spec.has_upper in Hup.
  apply negb_false_iff in Hup. now rewrite (lower_fixed p Hup).
Qed.

(** What C1 asks for holds of every entry written without capitals: an input
    equal to it up to case and punctuation gets the entry's gif. *)
Lemma lowercase_phrase_yields_gif :
  (forall s p : string,
     In p (Backend.ISL_PHRASES Backend.module_globals) ->
     Spec.has_upper p = false ->
     Spec.fold_case_punct s = Spec.fold_case_punct p ->
     Backend.process_text Backend.module_globals {| Backend.text := s |}
     = inr (Backend.Gif {| Backend.gif_type := "gif";
                           Backend.src := Spec.gif_path p;
                           Backend.alt := p |}))
  /\ (forall s p : string,
        In p (Root.isl_gif Root.module_globals) ->
        Spec.has_upper p = false ->
        Spec.fold_case_punct s = Spec.fold_case_punct p ->
        Root.process_text Root.module_globals {| Root.text := s |}
        = [("type", VStr "gif"); ("src", VStr (Spec.gif_path p));
           ("alt", VStr p)]).
Proof.
  split; intros s p Hin Hup Heq.
  - pose proof (backend_entries_plain p Hin) as Hplain.
    rewrite (fold_case_punct_plain p Hplain Hup) in Heq.
    assert (Hn : Backend.normalize s = p).
    { rewrite backend_normalize_fold; [exact Heq|].
      rewrite Heq. now apply plain_entry_spec. }
    rewrite backend_process_text_eq. cbn [Backend.text]. cbv zeta.
    rewrite Hn, (backend_phrase_not_empty p Hin).
    apply list_in_In in Hin. rewrite Hin. reflexivity.
  - pose proof (root_entries_plain p Hin) as Hplain.
    rewrite (fold_case_punct_plain p Hplain Hup) in Heq.
    rewrite root_process_text_eq. cbn [Root.text]. cbv zeta.
    rewrite root_normalize_fold, Heq.
    apply list_in_In in Hin. rewrite Hin. reflexivity.
Qed.

Example hello_gif :
  Backend.process_text Backend.module_globals {| Backend.text := "HELLO?!" |}
  = inr (Backend.Gif {| Backend.gif_type := "gif";
                        Backend.src := "/static/gifs/hello.gif";
                        Backend.alt := "hello" |}).
Proof.
  apply (proj1 lowercase_phrase_yields_gif "HELLO?!" "hello");
    [apply list_in_In | |]; vm_compute; reflexivity.
Qed.

(** ** Entries written with capitals *)

Lemma length_append (s t : string) :
  String.length (s ++ t) = String.length s + String.length t.
Proof. induction s as [|c s IH]; cbn; [reflexivity | now rewrite IH]. Qed.

Lemma append_suffix_inj (s1 s2 t : string) : s1 ++ t = s2 ++ t -> s1 = s2.
Proof.
  revert s2. induction s1 as [|c s1 IH]; intros [|d s2] H; cbn in H.
  - reflexivity.
  - apply (f_equal String.length) in H. cbn in H.
    rewrite length_append in H. lia.
  - apply (f_equal String.length) in H. cbn in H.
    rewrite length_append in H. lia.
  - injection H as -> H. f_equal. now apply IH.
Qed.

Lemma gif_path_inj (p q : string) : Spec.gif_path p = Spec.gif_path q -> p = q.
Proof.
  unfold Spec.gif_path. intros H.
  apply (append_suffix_inj p q ".gif").
  cbn in H. now injection H.
Qed.

Lemma no_upper_not_has_upper (t p : string) :
  Spec.all_chars (fun c => negb (Py.is_upper c)) t = true ->
  Spec.has_upper p = true -> t <> p.
Proof.
  intros Ht Hp ->. unfold Spec.has_upper in Hp. rewrite Ht in Hp.
  discriminate Hp.
Qed.

(** C9: no input makes [process_text] return the gif result of a phrase-table
    entry that contains an uppercase character, because the text tested for
    membership has been lowercased.  The entries concerned are
    'do you watch TV', 'shall I help you' and 'wait I am thinking', in both
    tables. *)
Theorem uppercase_entries_unreachable :
  filter Spec.has_upper (Backend.ISL_PHRASES Backend.module_globals)
  = ["do you watch TV"; "shall I help you"; "wait I am thinking"]
  /\ filter Spec.has_upper (Root.isl_gif Root.module_globals)
     = ["do you watch TV"; "shall I help you"; "wait I am thinking"]
  /\ (forall (p : string) (i : Backend.TextInput) (r : Backend.GifResponse),
        Spec.has_upper p = true ->
        Backend.process_text Backend.module_globals i = inr (Backend.Gif r) ->
        Backend.alt r <> p /\ Backend.src r <> Spec.gif_path p)
  /\ (forall (p : string) (i : Root.TextInput) (src alt : string),
        Spec.has_upper p = true ->
        Root.process_text Root.module_globals i
        = [("type", VStr "gif"); ("src", VStr src); ("alt", VStr alt)] ->
        alt <> p /\ src <> Spec.gif_path p).
Proof.
  split; [|split; [|split]].
  - vm_compute. reflexivity.
  - vm_compute. reflexivity.
  - intros p i r Hp. rewrite backend_process_text_eq. cbv zeta.
    pose proof (backend_normalize_no_upper (Backend.text i)) as Hlow.
    destruct (_ =? _)%string; [discriminate|].
    destruct (Py.list_in _ _).
    + intros [= <-]. cbn [Backend.alt Backend.src]. split.
      * now apply no_upper_not_has_upper.
      * intros E. apply gif_path_inj in E. revert E.
        now apply no_upper_not_has_upper.
    + destruct (Spec.az_chars _); discriminate.
  - intros p i src alt Hp. rewrite root_process_text_eq. cbv zeta.
    pose proof (root_normalize_no_upper (Root.text i)) as Hlow.
    destruct (Py.list_in _ _); [|discriminate].
    intros [= <- <-]. split.
    + now apply no_upper_not_has_upper.
    + intros E. apply gif_path_inj in E. revert E.
      now apply no_upper_not_has_upper.
Qed.

Lemma uppercase_entries_unreachable_witness :
  (Backend.alt {| Backend.gif_type := "gif";
                  Backend.src := "/static/gifs/i am thinking.gif";
                  Backend.alt := "i am thinking" |} <> "wait I am thinking"
   /\ Backend.src {| Backend.gif_type := "gif";
                     Backend.src := "/static/gifs/i am thinking.gif";
                     Backend.alt := "i am thinking" |}
      <> Spec.gif_path "wait I am thinking")
  /\ ("what is your job" <> "shall I help you"
      /\ "/static/gifs/what is your job.gif"
         <> Spec.gif_path "shall I help you").
Proof.
  split.
  - apply (proj1 (proj2 (proj2 uppercase_entries_unreachable))
             "wait I am thinking" {| Backend.text := "I am thinking..." |}).
    + vm_compute. reflexivity.
    + vm_compute. reflexivity.
  - apply (proj2 (proj2 (proj2 uppercase_entries_unreachable))
             "shall I help you" {| Root.text := "What is your job?" |}).
    + vm_compute. reflexivity.
    + vm_compute. reflexivity.
Defined.

(** C1, on the code: the input 'do you watch TV' is an entry of both phrase
    tables, yet both deployments spell it out letter by letter, because the
    lowercased text 'do you watch tv' is compared with the entry as it is
    written in the table. *)
Theorem uppercase_phrase_spelled_out :
  In "do you watch TV" (Backend.ISL_PHRASES Backend.module_globals)
  /\ In "do you watch TV" (Root.isl_gif Root.module_globals)
  /\ Backend.process_text Backend.module_globals
       {| Backend.text := "do you watch TV" |}
     = inr (Backend.Sequence
              {| Backend.seq_type := "sequence";
                 Backend.data :=
                   map Spec.letter_path (list_ascii_of_string "doyouwatchtv");
                 Backend.original_text := "do you watch tv" |})
  /\ Root.process_text Root.module_globals {| Root.text := "do you watch TV" |}
     = [("type", VStr "sequence");
        ("data",
         VList (map Spec.letter_path (list_ascii_of_string "doyouwatchtv")));
        ("original_text", VStr "do you watch tv")].
Proof.
  repeat split; try (vm_compute; reflexivity);
    apply list_in_In; vm_compute; reflexivity.
Qed.

(** ** Errors *)

Lemma backend_error_iff (i : Backend.TextInput) :
  (exists e, Backend.process_text Backend.module_globals i = inl e)
  <-> Spec.az_chars (Backend.normalize (Backend.text i)) = [].
Proof.
  rewrite backend_process_text_eq. cbv zeta.
  set (t := Backend.normalize (Backend.text i)).
  destruct (t =? "")%string eqn:Hempty.
  - apply String.eqb_eq in Hempty. rewrite Hempty.
    split; [reflexivity | intros _; eexists; reflexivity].
  - destruct (Py.list_in t _) eqn:Hin.
    + apply list_in_In, backend_phrases_have_az in Hin.
      split; [intros [e He]; discriminate He | intros H; now contradiction Hin].
    + destruct (Spec.az_chars t) eqn:Haz.
      * split; [reflexivity | intros _; eexists; reflexivity].
      * split; [intros [e He]; discriminate He | discriminate].
Qed.

Lemma backend_unsupported_no_az (s : string) :
  Spec.all_chars Spec.unsupported s = true ->
  Spec.az_chars (Backend.normalize s) = [].
Proof.
  intros H. apply az_chars_none. unfold Backend.normalize.
  now apply all_chars_join_if, all_chars_strip, lower_unsupported.
Qed.

(** C3, as stated, fails on the root deployment, which raises nothing:
    a text of punctuation normalizes to the empty string and comes back as
    a sequence result. *)
Lemma root_never_rejects_punctuation :
  Root.normalize "!!!" = ""
  /\ snd (Root.serve Root.module_globals (Root.POST_process "!!!"))
     = Returned [("type", VStr "sequence"); ("data", VList []);
                 ("original_text", VStr "")].
Proof. split; vm_compute; reflexivity. Qed.

(** C3 (amended): the backend's [process_text] raises exactly when the
    normalized text is empty or has no character with a letter asset; every
    text made only of punctuation, whitespace and unsupported characters is
    such a text; what it raises always carries status 400.  The root
    deployment's [process_text] raises nothing: every request is answered
    with a body. *)
Theorem invalid_input_error :
  (forall i : Backend.TextInput,
     let t := Backend.normalize (Backend.text i) in
     (exists e, Backend.process_text Backend.module_globals i = inl e)
     <-> (t = ""
          \/ Spec.no_letter_asset
               (Backend.AVAILABLE_LETTERS Backend.module_globals) t = true))
  /\ (forall i : Backend.TextInput,
        Spec.all_chars Spec.unsupported (Backend.text i) = true ->
        exists e, Backend.process_text Backend.module_globals i = inl e)
  /\ (forall (i : Backend.TextInput) (e : Backend.HTTPException),
        Backend.process_text Backend.module_globals i = inl e ->
        Backend.status_code e = 400)
  /\ (forall raw : string,
        snd (Root.serve Root.module_globals (Root.POST_process raw))
        = Returned (Root.process_text Root.module_globals
                      {| Root.text := raw |})).
Proof.
  split; [|split; [|split]].
  - intros i t. rewrite backend_no_letter_asset. split.
    + intros H. right. now apply backend_error_iff.
    + intros [H | H]; apply backend_error_iff; [|exact H].
      fold t. rewrite H. reflexivity.
  - intros i H. apply backend_error_iff. now apply backend_unsupported_no_az.
  - intros i e. rewrite backend_process_text_eq. cbv zeta.
    destruct (_ =? _)%string; [intros [= <-]; reflexivity|].
    destruct (Py.list_in _ _); [discriminate|].
    destruct (Spec.az_chars _); [intros [= <-]; reflexivity | discriminate].
  - intros raw. reflexivity.
Qed.

Lemma invalid_input_error_witness :
  (exists e,
     Backend.process_text Backend.module_globals
       {| Backend.text := " 42 + 1 = ?" |} = inl e)
  /\ Backend.status_code
       {| Backend.status_code := 400;
          Backend.detail := "No valid characters found to convert" |} = 400.
Proof.
  split.
  - apply (proj1 (proj2 invalid_input_error)
             {| Backend.text := " 42 + 1 = ?" |}).
    vm_compute. reflexivity.
  - apply (proj1 (proj2 (proj2 invalid_input_error))
             {| Backend.text := " 42 + 1 = ?" |}).
    vm_compute. reflexivity.
Defined.

(** ** Shape of the results *)

Lemma gif_body_xor_sequence_body (d : dict) :
  ~ (Spec.is_gif_body d /\ Spec.is_sequence_body d).
Proof. intros [(s & a & ->) (l & t & E)]. discriminate E. Qed.

Lemma backend_body_kind (i : Backend.TextInput) (resp : Backend.Response) :
  Backend.process_text Backend.module_globals i = inr resp ->
  Spec.is_gif_body (Backend.model_dump resp)
  \/ Spec.is_sequence_body (Backend.model_dump resp).
Proof.
  rewrite backend_process_text_eq. cbv zeta.
  destruct (_ =? _)%string; [discriminate|].
  destruct (Py.list_in _ _).
  - intros [= <-]. left. do 2 eexists. reflexivity.
  - destruct (Spec.az_chars _); [discriminate|].
    intros [= <-]. right. do 2 eexists. reflexivity.
Qed.

Lemma root_body_kind (i : Root.TextInput) :
  Spec.is_gif_body (Root.process_text Root.module_globals i)
  \/ Spec.is_sequence_body (Root.process_text Root.module_globals i).
Proof.
  rewrite root_process_text_eq. cbv zeta.
  destruct (Py.list_in _ _); [left | right]; do 2 eexists; reflexivity.
Qed.

(** C6, as stated, fails on the root deployment: a text without a-z
    characters comes back as a sequence result with an empty asset list. *)
Lemma root_returns_empty_sequence :
  Root.process_text Root.module_globals {| Root.text := "123" |}
  = [("type", VStr "sequence"); ("data", VList []);
     ("original_text", VStr "123")].
Proof. vm_compute. reflexivity. Qed.

(** C6 (amended): every body returned by either deployment is of exactly one
    of the two kinds.  In the backend every returned sequence result has a
    non-empty asset list, and a text for which the loop collects nothing
    raises an error instead.  The root deployment raises nothing: for a
    normalized text without a-z characters it returns the sequence result
    with the empty list. *)
Theorem result_is_one_kind :
  (forall (i : Backend.TextInput) (resp : Backend.Response),
     Backend.process_text Backend.module_globals i = inr resp ->
     let d := Backend.model_dump resp in
     (Spec.is_gif_body d \/ Spec.is_sequence_body d)
     /\ ~ (Spec.is_gif_body d /\ Spec.is_sequence_body d))
  /\ (forall i : Root.TextInput,
        let d := Root.process_text Root.module_globals i in
        (Spec.is_gif_body d \/ Spec.is_sequence_body d)
        /\ ~ (Spec.is_gif_body d /\ Spec.is_sequence_body d))
  /\ (forall (i : Backend.TextInput) (s : Backend.SequenceResponse),
        Backend.process_text Backend.module_globals i
        = inr (Backend.Sequence s) ->
        Backend.data s <> [])
  /\ (forall i : Backend.TextInput,
        fold_left (Backend.spell_step Backend.module_globals)
          (Py.chars (Backend.normalize (Backend.text i))) [] = [] ->
        exists e, Backend.process_text Backend.module_globals i = inl e)
  /\ (forall i : Root.TextInput,
        let t := Root.normalize (Root.text i) in
        Spec.az_chars t = [] ->
        Root.process_text Root.module_globals i
        = [("type", VStr "sequence"); ("data", VList []);
           ("original_text", VStr t)]).
Proof.
  split; [|split; [|split; [|split]]].
  - intros i resp H d. split.
    + exact (backend_body_kind i resp H).
    + apply gif_body_xor_sequence_body.
  - intros i d. split.
    + exact (root_body_kind i).
    + apply gif_body_xor_sequence_body.
  - intros i s. rewrite backend_process_text_eq. cbv zeta.
    destruct (_ =? _)%string; [discriminate|].
    destruct (Py.list_in _ _); [discriminate|].
    destruct (Spec.az_chars _) eqn:Haz; [discriminate|].
    intros [= <-]. cbn. discriminate.
  - intros i H. apply backend_error_iff.
    rewrite backend_spell in H. cbn [app] in H.
    destruct (Spec.az_chars _); [reflexivity | discriminate H].
  - intros i t Haz. rewrite root_process_text_eq. fold t. cbv zeta.
    destruct (Py.list_in _ _) eqn:Hin.
    + apply list_in_In, root_phrases_have_az in Hin. now contradiction Hin.
    + rewrite Haz. reflexivity.
Qed.

Lemma result_is_one_kind_witness :
  ((Spec.is_gif_body
      [("type", VStr "gif"); ("src", VStr "/static/gifs/hi.gif");
       ("alt", VStr "hi")]
    \/ Spec.is_sequence_body
         [("type", VStr "gif"); ("src", VStr "/static/gifs/hi.gif");
          ("alt", VStr "hi")])
   /\ ~ (Spec.is_gif_body
           [("type", VStr "gif"); ("src", VStr "/static/gifs/hi.gif");
            ("alt", VStr "hi")]
         /\ Spec.is_sequence_body
              [("type", VStr "gif"); ("src", VStr "/static/gifs/hi.gif");
               ("alt", VStr "hi")]))
  /\ Backend.data {| Backend.seq_type := "sequence";
                     Backend.data := ["/static/letters/o.jpg";
                                      "/static/letters/k.jpg"];
                     Backend.original_text := "ok" |} <> []
  /\ (exists e,
        Backend.process_text Backend.module_globals
          {| Backend.text := "2 + 2" |} = inl e)
  /\ Root.process_text Root.module_globals {| Root.text := "2 + 2" |}
     = [("type", VStr "sequence"); ("data", VList []);
        ("original_text", VStr "2  2")].
Proof.
  split; [|split; [|split]].
  - apply (proj1 result_is_one_kind {| Backend.text := "Hi" |}
             (Backend.Gif {| Backend.gif_type := "gif";
                             Backend.src := "/static/gifs/hi.gif";
                             Backend.alt := "hi" |})).
    vm_compute. reflexivity.
  - apply (proj1 (proj2 (proj2 result_is_one_kind))
             {| Backend.text := "OK!" |}).
    vm_compute. reflexivity.
  - apply (proj1 (proj2 (proj2 (proj2 result_is_one_kind)))
             {| Backend.text := "2 + 2" |}).
    vm_compute. reflexivity.
  - apply (proj2 (proj2 (proj2 (proj2 result_is_one_kind)))
             {| Root.text := "2 + 2" |}).
    vm_compute. reflexivity.
Defined.

(** ** The request model *)

Lemma backend_validate_ok (raw : string) :
  1 <= String.length raw <= 500 ->
  Backend.TextInput_validate raw = Some {| Backend.text := raw |}.
Proof.
  intros [Hlo Hhi]. unfold Backend.TextInput_validate.
  apply Nat.leb_le in Hlo, Hhi. rewrite Hlo, Hhi. reflexivity.
Qed.

Lemma backend_validate_fails (raw : string) :
  ~ (1 <= String.length raw <= 500) ->
  Backend.TextInput_validate raw = None.
Proof.
  intros H. unfold Backend.TextInput_validate.
  destruct (1 <=? String.length raw)%nat eqn:Hlo;
    destruct (String.length raw <=? 500)%nat eqn:Hhi; try reflexivity.
  apply Nat.leb_le in Hlo, Hhi. contradiction H. now split.
Qed.

(** C7, as stated, fails on the root deployment, whose request model puts no
    bound on the text: the empty text and a text of 501 characters are both
    accepted and handed to the handler. *)
Lemma root_accepts_any_length :
  String.length "" = 0
  /\ Root.serve Root.module_globals (Root.POST_process "")
     = (Root.module_globals,
        Returned [("type", VStr "sequence"); ("data", VList []);
                  ("original_text", VStr "")])
  /\ String.length (Spec.a_run 501) = 501
  /\ Root.serve Root.module_globals (Root.POST_process (Spec.a_run 501))
     = (Root.module_globals,
        Returned [("type", VStr "sequence");
                  ("data", VList (map Spec.letter_path
                                    (Spec.az_chars (Spec.a_run 501))));
                  ("original_text", VStr (Spec.a_run 501))]).
Proof. repeat split; vm_compute; reflexivity. Qed.

(** C7 (amended): the backend's request model takes one text field and
    accepts it exactly when it has 1 to 500 characters; a request outside
    that range is rejected without the handler being run, on both of its
    conversion routes.  The root deployment's request model takes one text
    field of any length. *)
Theorem request_length_contract :
  (forall (G : Backend.Globals) (raw : string),
     1 <= String.length raw <= 500 ->
     Backend.serve G (Backend.POST_process raw)
     = (G, Backend.outcome (Backend.process_text G {| Backend.text := raw |})))
  /\ (forall (G : Backend.Globals) (raw : string),
        ~ (1 <= String.length raw <= 500) ->
        Backend.serve G (Backend.POST_process raw) = (G, Rejected)
        /\ Backend.serve G (Backend.POST_api_convert raw) = (G, Rejected))
  /\ (forall (G : Root.Globals) (raw : string),
        Root.serve G (Root.POST_process raw)
        = (G, Returned (Root.process_text G {| Root.text := raw |}))).
Proof.
  split; [|split].
  - intros G raw H. unfold Backend.serve.
    rewrite (backend_validate_ok raw H). reflexivity.
  - intros G raw H. unfold Backend.serve.
    rewrite (backend_validate_fails raw H). split; reflexivity.
  - intros G raw. reflexivity.
Qed.

Lemma request_length_contract_witness :
  Backend.serve Backend.module_globals (Backend.POST_process "Hello!")
  = (Backend.module_globals,
     Returned [("type", VStr "gif"); ("src", VStr "/static/gifs/hello.gif");
               ("alt", VStr "hello")])
  /\ Backend.serve Backend.module_globals (Backend.POST_process "")
     = (Backend.module_globals, Rejected)
  /\ Backend.serve Backend.module_globals
       (Backend.POST_api_convert (Spec.a_run 501))
     = (Backend.module_globals, Rejected).
Proof.
  split; [|split].
  - apply (proj1 request_length_contract Backend.module_globals "Hello!").
    cbn. lia.
  - apply (proj1 (proj2 request_length_contract) Backend.module_globals "").
    cbn. lia.
  - apply (proj1 (proj2 request_length_contract)
             Backend.module_globals (Spec.a_run 501)).
    intros [_ H]. apply Nat.leb_le in H. vm_compute in H. discriminate H.
Defined.

(** ** The two deployments compared *)

(** C8: the conversion functions of the two deployments are not the same
    function.  They part on a phrase only the backend's table has ("hi",
    "thank" and "welcome" are such phrases), on surrounding whitespace, which
    only the backend trims, and on a text with nothing to show, which the
    backend refuses and the root deployment answers with an empty sequence. *)
Theorem deployments_differ :
  (exists raw : string,
     Backend.outcome
       (Backend.process_text Backend.module_globals {| Backend.text := raw |})
     <> Returned (Root.process_text Root.module_globals {| Root.text := raw |}))
  /\ (Backend.outcome
        (Backend.process_text Backend.module_globals {| Backend.text := "hi" |})
      = Returned [("type", VStr "gif"); ("src", VStr "/static/gifs/hi.gif");
                  ("alt", VStr "hi")]
      /\ Root.process_text Root.module_globals {| Root.text := "hi" |}
         = [("type", VStr "sequence");
            ("data", VList ["/static/letters/h.jpg"; "/static/letters/i.jpg"]);
            ("original_text", VStr "hi")])
  /\ (Backend.normalize " cat " = "cat" /\ Root.normalize " cat " = " cat "
      /\ Backend.outcome
           (Backend.process_text Backend.module_globals
              {| Backend.text := " cat " |})
         = Returned [("type", VStr "gif");
                     ("src", VStr "/static/gifs/cat.gif");
                     ("alt", VStr "cat")]
      /\ Root.process_text Root.module_globals {| Root.text := " cat " |}
         = [("type", VStr "sequence");
            ("data", VList ["/static/letters/c.jpg"; "/static/letters/a.jpg";
                            "/static/letters/t.jpg"]);
            ("original_text", VStr " cat ")])
  /\ (Backend.outcome
        (Backend.process_text Backend.module_globals {| Backend.text := "?" |})
      = Raised 400 "Text cannot be empty after processing"
      /\ Root.process_text Root.module_globals {| Root.text := "?" |}
         = [("type", VStr "sequence"); ("data", VList []);
            ("original_text", VStr "")])
  /\ filter (fun p => negb (Py.list_in p (Root.isl_gif Root.module_globals)))
       (Backend.ISL_PHRASES Backend.module_globals)
     = ["june"; "thank"; "welcome"; "hi"; "yourself"]
  /\ filter
       (fun p =>
          negb (Py.list_in p (Backend.ISL_PHRASES Backend.module_globals)))
       (Root.isl_gif Root.module_globals)
     = [].
Proof.
  split; [|split; [|split; [|split; [|split]]]].
  - exists "hi". vm_compute. discriminate.
  - split; vm_compute; reflexivity.
  - repeat split; vm_compute; reflexivity.
  - split; vm_compute; reflexivity.
  - vm_compute. reflexivity.
  - vm_compute. reflexivity.
Qed.

(** ** Inputs that get the same answer *)


Lemma not_punctuation_lower_char (c : ascii) :
  Spec.not_punctuation (Py.lower_char c) = Spec.not_punctuation c.
Proof. each_char c. Qed.




Lemma lower_join_if (s : string) :
  Py.lower (Py.join_if Spec.not_punctuation s)
  = Py.join_if Spec.not_punctuation (Py.lower s).
Proof.
  induction s as [|c s IH]; [reflexivity|].
  cbn [Py.lower Py.join_if]. rewrite not_punctuation_lower_char.
  destruct (Spec.not_punctuation c); cbn [Py.lower]; now rewrite IH.
Qed.





Lemma root_same_normalize (G : Root.Globals) (i1 i2 : Root.TextInput) :
  Root.normalize (Root.text i1) = Root.normalize (Root.text i2) ->
  Root.process_text G i1 = Root.process_text G i2.
Proof. unfold Root.process_text. cbv zeta. now intros ->. Qed.



(** X3: on text of code points below 256 the root deployment ignores
    punctuation anywhere in the input: a text and the text without its
    punctuation get the same result.  (The statement is about this range
    only: beyond it [str.lower] lowercases U+03A3 by what follows it, which
    removing punctuation can change.) *)
Theorem root_ignores_punctuation :
  forall (G : Root.Globals) (s : string),
    Root.process_text G
      {| Root.text := Py.join_if Spec.not_punctuation s |}
    = Root.process_text G {| Root.text := s |}.
Proof.
  intros G s. apply root_same_normalize. cbn [Root.text].
  unfold Root.normalize. cbv zeta. rewrite lower_join_if.
  apply (join_if_idempotent Spec.not_punctuation).
Qed.

(** ** The spelling loop over any letter table *)

Section SpellingLoop.

Variable letters : list string.
Variable step : list string -> string -> list string.
Hypothesis step_eq :
  forall images char,
    step images char
    = if Py.list_in char letters
      then (images ++ [Spec.letter_asset char])%list
      else images.

Lemma spell_loop (text : string) (images : list string) :
  fold_left step (Py.chars text) images
  = (images ++ map Spec.letter_asset (Spec.table_chars letters text))%list.
Proof.
  unfold Spec.table_chars.
  revert images. induction text as [|c text IH]; intros images.
  - cbn. now rewrite app_nil_r.
  - cbn [Py.chars fold_left filter]. rewrite IH, step_eq.
    destruct (Py.list_in (Py.chr c) letters); [|reflexivity].
    rewrite <- app_assoc. reflexivity.
Qed.

End SpellingLoop.

Lemma chars_length (s : string) : List.length (Py.chars s) = String.length s.
Proof. induction s as [|c s IH]; cbn; [reflexivity | now rewrite IH]. Qed.

Lemma table_chars_length (letters : list string) (s : string) :
  List.length (Spec.table_chars letters s) <= String.length s.
Proof.
  unfold Spec.table_chars. rewrite <- chars_length. apply filter_length_le.
Qed.

(** The backend handler over any tables, with its loop replaced by what the
    loop computes. *)
Lemma backend_process_text_any (G : Backend.Globals) (i : Backend.TextInput) :
  Backend.process_text G i
  = let t := Backend.normalize (Backend.text i) in
    if (t =? "")%string then
      inl {| Backend.status_code := 400;
             Backend.detail := "Text cannot be empty after processing" |}
    else if Py.list_in t (Backend.ISL_PHRASES G) then
      inr (Backend.Gif {| Backend.gif_type := "gif";
                          Backend.src := Spec.gif_path t;
                          Backend.alt := t |})
    else
      match Spec.table_chars (Backend.AVAILABLE_LETTERS G) t with
      | [] =>
          inl {| Backend.status_code := 400;
                 Backend.detail := "No valid characters found to convert" |}
      | _ :: _ =>
          inr (Backend.Sequence
                 {| Backend.seq_type := "sequence";
                    Backend.data :=
                      map Spec.letter_asset
                        (Spec.table_chars (Backend.AVAILABLE_LETTERS G) t);
                    Backend.original_text := t |})
      end.
Proof.
  unfold Backend.process_text. cbv zeta.
  rewrite (spell_loop (Backend.AVAILABLE_LETTERS G) (Backend.spell_step G)
             (fun _ _ => eq_refl)).
  cbn [app].
  destruct (Spec.table_chars _ _); reflexivity.
Qed.

Lemma root_process_text_any (G : Root.Globals) (i : Root.TextInput) :
  Root.process_text G i
  = let t := Root.normalize (Root.text i) in
    if Py.list_in t (Root.isl_gif G) then
      [("type", VStr "gif"); ("src", VStr (Spec.gif_path t));
       ("alt", VStr t)]
    else
      [("type", VStr "sequence");
       ("data", VList (map Spec.letter_asset
                         (Spec.table_chars (Root.arr G) t)));
       ("original_text", VStr t)].
Proof.
  unfold Root.process_text. cbv zeta.
  rewrite (spell_loop (Root.arr G) (Root.spell_step G) (fun _ _ => eq_refl)).
  reflexivity.
Qed.

(** What a backend response echoes is the normalized text. *)
Lemma backend_echoed (G : Backend.Globals) (i : Backend.TextInput)
  (resp : Backend.Response) :
  Backend.process_text G i = inr resp ->
  Spec.echoed resp = Backend.normalize (Backend.text i)
  /\ Spec.echoed resp <> "".
Proof.
  rewrite backend_process_text_any. cbv zeta.
  destruct (_ =? _)%string eqn:He; [discriminate|].
  apply String.eqb_neq in He.
  destruct (Py.list_in _ _).
  - intros [= <-]. now split.
  - destruct (Spec.table_chars _ _); [discriminate|].
    intros [= <-]. now split.
Qed.

Lemma all_chars_weaken (P Q : ascii -> bool) (s : string) :
  (forall c, P c = true -> Q c = true) ->
  Spec.all_chars P s = true -> Spec.all_chars Q s = true.
Proof.
  intros HPQ. induction s as [|c s IH]; [reflexivity|].
  cbn [Spec.all_chars]. intros H. apply andb_true_iff in H as [Hc Hs].
  rewrite (HPQ c Hc), (IH Hs). reflexivity.
Qed.

Lemma not_upper_not_capital (c : ascii) :
  negb (Py.is_upper c) = true -> negb (Py.between 65 90 c) = true.
Proof. each_char c. Qed.

(** X4: the text a result echoes (the alt text of a gif result, the
    original_text of a sequence result) is left as it is by [str.lower],
    has none of the letters A-Z and none of the 32 characters of
    [string.punctuation], whatever the input and the tables; in the backend
    it is never empty. *)
Theorem echoed_text_is_clean :
  (forall (G : Backend.Globals) (i : Backend.TextInput)
          (resp : Backend.Response),
     Backend.process_text G i = inr resp ->
     Spec.echoed resp <> ""
     /\ Py.lower (Spec.echoed resp) = Spec.echoed resp
     /\ Spec.all_chars (fun c => negb (Py.between 65 90 c))
          (Spec.echoed resp) = true
     /\ Spec.all_chars (fun c => negb (Py.char_in c Py.punctuation))
          (Spec.echoed resp) = true)
  /\ (forall (G : Root.Globals) (i : Root.TextInput),
        exists t : string,
          (In ("alt", VStr t) (Root.process_text G i)
           \/ In ("original_text", VStr t) (Root.process_text G i))
          /\ Py.lower t = t
          /\ Spec.all_chars (fun c => negb (Py.between 65 90 c)) t = true
          /\ Spec.all_chars (fun c => negb (Py.char_in c Py.punctuation)) t
             = true).
Proof.
  split.
  - intros G i resp H. apply backend_echoed in H as [-> Hne].
    pose proof (backend_normalize_no_upper (Backend.text i)) as Hlow.
    split; [exact Hne|]. split; [now apply lower_fixed|]. split.
    + exact (all_chars_weaken _ _ _ not_upper_not_capital Hlow).
    + apply (all_chars_of_join_if Spec.not_punctuation).
  - intros G i. exists (Root.normalize (Root.text i)).
    pose proof (root_normalize_no_upper (Root.text i)) as Hlow.
    split; [|split; [|split]].
    + rewrite root_process_text_any. cbv zeta.
      destruct (Py.list_in _ _); [left | right]; cbn; tauto.
    + now apply lower_fixed.
    + exact (all_chars_weaken _ _ _ not_upper_not_capital Hlow).
    + apply (all_chars_of_join_if Spec.not_punctuation).
Qed.

Lemma echoed_text_is_clean_witness :
  Spec.echoed
    (Backend.Sequence
       {| Backend.seq_type := "sequence";
          Backend.data := ["/static/letters/o.jpg"; "/static/letters/k.jpg"];
          Backend.original_text := "ok 42" |}) <> ""
  /\ Py.lower "ok 42" = "ok 42"
  /\ Spec.all_chars (fun c => negb (Py.between 65 90 c)) "ok 42" = true
  /\ Spec.all_chars (fun c => negb (Py.char_in c Py.punctuation)) "ok 42"
     = true.
Proof.
  apply (proj1 echoed_text_is_clean Backend.module_globals
           {| Backend.text := "  O.K. (42)" |}).
  vm_compute. reflexivity.
Defined.

(** ** Sizes *)

(** X5: a sequence result never has more images than the text it echoes has
    characters, whatever the tables hold; in the backend it has at least
    one. *)
Theorem result_sizes :
  (forall (G : Backend.Globals) (i : Backend.TextInput)
          (q : Backend.SequenceResponse),
     Backend.process_text G i = inr (Backend.Sequence q) ->
     1 <= List.length (Backend.data q)
       <= String.length (Backend.original_text q))
  /\ (forall (G : Root.Globals) (i : Root.TextInput) (data : list string)
             (t : string),
        Root.process_text G i
        = [("type", VStr "sequence"); ("data", VList data);
           ("original_text", VStr t)] ->
        List.length data <= String.length t).
Proof.
  split.
  - intros G i q. rewrite backend_process_text_any. cbv zeta.
    destruct (_ =? _)%string; [discriminate|].
    destruct (Py.list_in _ _); [discriminate|].
    destruct (Spec.table_chars _ _) eqn:Htc; [discriminate|].
    intros [= <-]. cbn [Backend.data Backend.original_text List.length].
    rewrite length_map.
    pose proof (table_chars_length (Backend.AVAILABLE_LETTERS G)
                  (Backend.normalize (Backend.text i))) as Hle.
    rewrite Htc in Hle. cbn [List.length] in Hle. lia.
  - intros G i data t. rewrite root_process_text_any. cbv zeta.
    destruct (Py.list_in _ _); [discriminate|].
    intros [= <- <-]. rewrite length_map. apply table_chars_length.
Qed.

Lemma result_sizes_witness :
  1 <= List.length ["/static/letters/o.jpg"; "/static/letters/k.jpg"]
    <= String.length "ok 42"
  /\ List.length ["/static/letters/o.jpg"; "/static/letters/k.jpg"]
     <= String.length "  ok 42".
Proof.
  split.
  - apply (proj1 result_sizes Backend.module_globals
             {| Backend.text := "  O.K. (42)" |}
             {| Backend.seq_type := "sequence";
                Backend.data := ["/static/letters/o.jpg";
                                 "/static/letters/k.jpg"];
                Backend.original_text := "ok 42" |}).
    vm_compute. reflexivity.
  - apply (proj2 result_sizes Root.module_globals
             {| Root.text := "  O.K. (42)" |}).
    vm_compute. reflexivity.
Defined.

(** X6: the images of a sequence result can be read off the text it echoes:
    they are the assets [/static/letters/<char>.jpg] of exactly those
    characters of the echoed text that are in the letter table, one each and
    in order.  In both deployments, whatever the tables hold. *)
Theorem data_follows_echoed_text :
  (forall (G : Backend.Globals) (i : Backend.TextInput)
          (q : Backend.SequenceResponse),
     Backend.process_text G i = inr (Backend.Sequence q) ->
     Backend.data q
     = map Spec.letter_asset
         (Spec.table_chars (Backend.AVAILABLE_LETTERS G)
            (Backend.original_text q)))
  /\ (forall (G : Root.Globals) (i : Root.TextInput) (data : list string)
             (t : string),
        Root.process_text G i
        = [("type", VStr "sequence"); ("data", VList data);
           ("original_text", VStr t)] ->
        data = map Spec.letter_asset (Spec.table_chars (Root.arr G) t)).
Proof.
  split.
  - intros G i q. rewrite backend_process_text_any. cbv zeta.
    destruct (_ =? _)%string; [discriminate|].
    destruct (Py.list_in _ _); [discriminate|].
    destruct (Spec.table_chars _ _) eqn:Htc; [discriminate|].
    intros [= <-]. cbn [Backend.data Backend.original_text].
    now rewrite Htc.
  - intros G i data t. rewrite root_process_text_any. cbv zeta.
    destruct (Py.list_in _ _); [discriminate|].
    now intros [= <- <-].
Qed.

Lemma data_follows_echoed_text_witness :
  Backend.data
    {| Backend.seq_type := "sequence";
       Backend.data := ["/static/letters/o.jpg"; "/static/letters/k.jpg"];
       Backend.original_text := "ok 42" |}
  = map Spec.letter_asset
      (Spec.table_chars (Backend.AVAILABLE_LETTERS Backend.module_globals)
         "ok 42")
  /\ ["/static/letters/o.jpg"; "/static/letters/k.jpg"]
     = map Spec.letter_asset
         (Spec.table_chars (Root.arr Root.module_globals) "  ok 42").
Proof.
  split.
  - apply (proj1 data_follows_echoed_text Backend.module_globals
             {| Backend.text := "  O.K. (42)" |}).
    vm_compute. reflexivity.
  - apply (proj2 data_follows_echoed_text Root.module_globals
             {| Root.text := "  O.K. (42)" |}).
    vm_compute. reflexivity.
Defined.

(** ** Where the two deployments agree *)

Lemma root_table_in_backend (p : string) :
  In p (Root.isl_gif Root.module_globals) ->
  In p (Backend.ISL_PHRASES Backend.module_globals).
Proof.
  intros H. apply list_in_In. revert p H. apply forallb_forall.
  vm_compute. reflexivity.
Qed.

Lemma az_chars_join_if (keep : ascii -> bool) (s : string) :
  (forall c, Spec.is_az c = true -> keep c = true) ->
  Spec.az_chars (Py.join_if keep s) = Spec.az_chars s.
Proof.
  intros Hk. induction s as [|c s IH]; [reflexivity|].
  cbn [Py.join_if]. rewrite az_chars_cons.
  destruct (keep c) eqn:Hc.
  - rewrite az_chars_cons, IH. reflexivity.
  - destruct (Spec.is_az c) eqn:Haz; [|exact IH].
    rewrite (Hk c Haz) in Hc. discriminate Hc.
Qed.

Lemma space_not_az (c : ascii) : Py.is_space c = true -> Spec.is_az c = false.
Proof.
  intros H. destruct (Spec.is_az c) eqn:Haz; [|reflexivity].
  rewrite (az_not_space c Haz) in H. discriminate H.
Qed.

Lemma az_chars_lstrip (s : string) :
  Spec.az_chars (Py.lstrip s) = Spec.az_chars s.
Proof.
  induction s as [|c s IH]; [reflexivity|].
  cbn [Py.lstrip]. destruct (Py.is_space c) eqn:Hc; [|reflexivity].
  now rewrite az_chars_cons, (space_not_az c Hc).
Qed.

Lemma az_chars_rstrip (s : string) :
  Spec.az_chars (Py.rstrip s) = Spec.az_chars s.
Proof.
  induction s as [|c s IH]; [reflexivity|].
  cbn [Py.rstrip]. rewrite (az_chars_cons c s), <- IH.
  destruct (Py.rstrip s) as [|d r]; [|apply az_chars_cons].
  destruct (Py.is_space c) eqn:Hc.
  - now rewrite (space_not_az c Hc).
  - apply az_chars_cons.
Qed.

Lemma az_chars_strip (s : string) :
  Spec.az_chars (Py.strip s) = Spec.az_chars s.
Proof. unfold Py.strip. now rewrite az_chars_rstrip, az_chars_lstrip. Qed.

Lemma az_kept (c : ascii) :
  Spec.is_az c = true -> Spec.not_punctuation c = true.
Proof.
  intros H. unfold Spec.not_punctuation.
  now rewrite (az_not_punctuation c H).
Qed.

(** Both normalizers leave the same a-z characters. *)
Lemma normalize_same_az (s : string) :
  Spec.az_chars (Backend.normalize s) = Spec.az_chars (Root.normalize s).
Proof.
  unfold Backend.normalize, Root.normalize. cbv zeta.
  rewrite !(az_chars_join_if Spec.not_punctuation) by exact az_kept.
  apply az_chars_strip.
Qed.

(** When the root's normalized text is a table entry, the backend's
    normalized text is the same text. *)
Lemma normalize_same_on_root_entry (s : string) :
  In (Root.normalize s) (Root.isl_gif Root.module_globals) ->
  Backend.normalize s = Root.normalize s.
Proof.
  intros H. rewrite root_normalize_fold in *.
  apply backend_normalize_fold.
  now apply plain_entry_spec, root_entries_plain.
Qed.



(** X8: whenever the backend spells a text out, the root deployment spells
    it out with the same images, in the same order. *)
Theorem backend_sequence_is_root_sequence :
  forall (raw : string) (q : Backend.SequenceResponse),
    Backend.process_text Backend.module_globals {| Backend.text := raw |}
    = inr (Backend.Sequence q) ->
    Root.process_text Root.module_globals {| Root.text := raw |}
    = [("type", VStr "sequence"); ("data", VList (Backend.data q));
       ("original_text", VStr (Root.normalize raw))].
Proof.
  intros raw q. rewrite root_process_text_eq, backend_process_text_eq.
  cbn [Root.text Backend.text]. cbv zeta.
  destruct (_ =? _)%string; [discriminate|].
  destruct (Py.list_in (Backend.normalize raw) _) eqn:Hb; [discriminate|].
  destruct (Spec.az_chars (Backend.normalize raw)) eqn:Haz; [discriminate|].
  intros [= <-]. cbn [Backend.data].
  destruct (Py.list_in (Root.normalize raw) _) eqn:Hr.
  - apply list_in_In in Hr.
    pose proof (normalize_same_on_root_entry raw Hr) as E.
    apply root_table_in_backend, list_in_In in Hr.
    rewrite <- E, Hb in Hr. discriminate Hr.
  - rewrite <- normalize_same_az, Haz. reflexivity.
Qed.

Lemma backend_sequence_is_root_sequence_witness :
  Root.process_text Root.module_globals {| Root.text := " Hi, there " |}
  = [("type", VStr "sequence");
     ("data",
      VList (map Spec.letter_path (list_ascii_of_string "hithere")));
     ("original_text", VStr " hi there ")].
Proof.
  apply (backend_sequence_is_root_sequence " Hi, there "
           {| Backend.seq_type := "sequence";
              Backend.data :=
                map Spec.letter_path (list_ascii_of_string "hithere");
              Backend.original_text := "hi there" |}).
  vm_compute. reflexivity.
Defined.


(** ** The listing of the phrases *)

Lemma ltb_false_leb (x y : string) :
  (y <? x)%string = false -> Spec.str_le x y.
Proof.
  unfold Spec.str_le, String.ltb, String.leb.
  rewrite (String.compare_antisym x y).
  destruct (String.compare y x); cbn; intros H; try reflexivity.
  discriminate H.
Qed.

Lemma ltb_true_leb (x y : string) :
  (y <? x)%string = true -> Spec.str_le y x.
Proof.
  unfold Spec.str_le, String.ltb, String.leb.
  destruct (String.compare y x); intros H; try reflexivity.
  discriminate H.
Qed.

Lemma insert_sorted_permutation (x : string) (l : list string) :
  Permutation (x :: l) (Py.insert_sorted x l).
Proof.
  induction l as [|y l IH]; cbn [Py.insert_sorted]; [reflexivity|].
  destruct (y <? x)%string; [|reflexivity].
  rewrite perm_swap. now apply perm_skip.
Qed.

Lemma insert_sorted_head (x y : string) (l : list string) :
  Spec.str_le y x -> HdRel Spec.str_le y l ->
  HdRel Spec.str_le y (Py.insert_sorted x l).
Proof.
  intros Hyx Hl. destruct l as [|z l]; cbn [Py.insert_sorted].
  - now constructor.
  - destruct (z <? x)%string; constructor; [|exact Hyx].
    now apply HdRel_inv in Hl.
Qed.

Lemma insert_sorted_keeps_order (x : string) (l : list string) :
  Sorted Spec.str_le l -> Sorted Spec.str_le (Py.insert_sorted x l).
Proof.
  induction l as [|y l IH]; intros Hs; cbn [Py.insert_sorted].
  - repeat constructor.
  - apply Sorted_inv in Hs as [Hs Hhd].
    destruct (y <? x)%string eqn:Hlt.
    + constructor; [now apply IH|].
      apply insert_sorted_head; [now apply ltb_true_leb | exact Hhd].
    + constructor; [now constructor|].
      constructor. now apply ltb_false_leb.
Qed.

Lemma sorted_permutation (l : list string) : Permutation l (Py.sorted l).
Proof.
  induction l as [|x l IH]; cbn [Py.sorted fold_right]; [reflexivity|].
  rewrite <- insert_sorted_permutation. now apply perm_skip.
Qed.

Lemma sorted_in_order (l : list string) : Sorted Spec.str_le (Py.sorted l).
Proof.
  induction l as [|x l IH]; cbn [Py.sorted fold_right]; [constructor|].
  now apply insert_sorted_keeps_order.
Qed.

(** X10: the phrase listing returns the entries of the phrase table, each as
    often as the table has it, in ascending string order, with their number
    as count; the health check reports the same number.  The table itself
    is left in its own order. *)
Theorem phrase_listing_sorted :
  forall G : Backend.Globals,
    exists phrases : list string,
      Backend.get_available_phrases G
      = [("phrases", VList phrases); ("count", VInt (List.length phrases))]
      /\ Sorted Spec.str_le phrases
      /\ Permutation (Backend.ISL_PHRASES G) phrases
      /\ In ("phrases_count", VInt (List.length phrases))
           (Backend.health_check G)
      /\ fst (Backend.serve G Backend.GET_api_phrases) = G.
Proof.
  intros G. exists (Py.sorted (Backend.ISL_PHRASES G)).
  pose proof (sorted_permutation (Backend.ISL_PHRASES G)) as Hperm.
  pose proof (Permutation_length Hperm) as Hlen.
  split; [|split; [|split; [|split]]].
  - unfold Backend.get_available_phrases. now rewrite Hlen.
  - apply sorted_in_order.
  - exact Hperm.
  - unfold Backend.health_check. rewrite Hlen. cbn. tauto.
  - reflexivity.
Qed.

(** ** The tables as data *)

Lemma nodupb_NoDup (l : list string) : Spec.nodupb l = true -> NoDup l.
Proof.
  induction l as [|x l IH]; cbn [Spec.nodupb]; intros H; constructor.
  - apply andb_true_iff in H as [H _]. apply negb_true_iff in H.
    now apply list_in_not_In.
  - apply andb_true_iff in H as [_ H]. now apply IH.
Qed.

(** X11: neither phrase table holds a phrase twice; every entry of either
    has an a-z character, no whitespace at its ends and no punctuation; and
    every entry of the root's table is an entry of the backend's.  Both
    letter tables are the 26 letters a to z, each once. *)
Theorem tables_well_formed :
  NoDup (Backend.ISL_PHRASES Backend.module_globals)
  /\ NoDup (Root.isl_gif Root.module_globals)
  /\ (forall p, In p (Backend.ISL_PHRASES Backend.module_globals) ->
                Spec.az_chars p <> [] /\ Spec.trimmed p
                /\ Spec.all_chars Spec.not_punctuation p = true)
  /\ incl (Root.isl_gif Root.module_globals)
       (Backend.ISL_PHRASES Backend.module_globals)
  /\ Backend.AVAILABLE_LETTERS Backend.module_globals
     = Root.arr Root.module_globals
  /\ NoDup (Root.arr Root.module_globals)
  /\ (forall char, In char (Root.arr Root.module_globals)
                   <-> exists c, Spec.is_az c = true /\ char = Py.chr c).
Proof.
  split; [|split; [|split; [|split; [|split; [|split]]]]].
  - apply nodupb_NoDup. vm_compute. reflexivity.
  - apply nodupb_NoDup. vm_compute. reflexivity.
  - intros p Hp. split; [now apply backend_phrases_have_az|].
    apply backend_entries_plain, plain_entry_spec in Hp as [Ht Hj].
    split; [exact Ht|]. rewrite <- Hj.
    apply (all_chars_of_join_if Spec.not_punctuation).
  - intros p. apply root_table_in_backend.
  - reflexivity.
  - apply nodupb_NoDup. vm_compute. reflexivity.
  - intros char. split.
    + intros H. cbn in H.
      repeat (destruct H as [<- | H];
              [eexists; split; [|reflexivity]; reflexivity|]).
      contradiction.
    + intros (c & Haz & ->). apply list_in_In.
      now rewrite root_letter_is_az.
Qed.

Lemma tables_well_formed_witness :
  Spec.az_chars "tamil nadu" <> [] /\ Spec.trimmed "tamil nadu"
  /\ Spec.all_chars Spec.not_punctuation "tamil nadu" = true.
Proof.
  apply (proj1 (proj2 (proj2 tables_well_formed)) "tamil nadu").
  apply list_in_In. vm_compute. reflexivity.
Defined.

(** ** The configured origins *)

Lemma split_from_join (sep : ascii) (s : string) :
  Py.join sep (Py.split sep s) = s.
Proof.
  unfold Py.join, Py.split.
  induction s as [|c s IH]; [reflexivity|].
  cbn [Py.split_from]. destruct (Py.split_from sep s) as [piece pieces].
  destruct (Ascii.eqb c sep) eqn:Hc.
  - apply Ascii.eqb_eq in Hc. subst c.
    change (String.concat (Py.chr sep) ("" :: piece :: pieces))
      with (String sep (String.concat (Py.chr sep) (piece :: pieces))).
    now rewrite IH.
  - destruct pieces as [|p ps]; cbn [String.concat] in *.
    + now rewrite IH.
    + cbn [append]. now rewrite IH.
Qed.

Lemma split_pieces_no_sep (sep : ascii) (s : string) :
  Forall (fun piece => Py.char_in sep piece = false) (Py.split sep s).
Proof.
  unfold Py.split.
  induction s as [|c s IH]; [repeat constructor|].
  cbn [Py.split_from]. destruct (Py.split_from sep s) as [piece pieces].
  apply Forall_cons_iff in IH as [Hp Hps].
  destruct (Ascii.eqb c sep) eqn:Hc.
  - repeat constructor; assumption.
  - constructor; [|exact Hps]. cbn [Py.char_in].
    rewrite Ascii.eqb_sym, Hc, Hp. reflexivity.
Qed.

Lemma split_from_piece (sep : ascii) (piece rest : string) :
  Py.char_in sep piece = false ->
  Py.split_from sep (piece ++ String sep rest)
  = (piece, Py.split sep rest).
Proof.
  unfold Py.split. intros H.
  induction piece as [|c piece IH]; cbn [append Py.split_from].
  - rewrite Ascii.eqb_refl. destruct (Py.split_from sep rest). reflexivity.
  - cbn [Py.char_in] in H. apply orb_false_iff in H as [Hc Hp].
    rewrite (IH Hp). destruct (Py.split_from sep rest) as [p ps].
    rewrite Ascii.eqb_sym, Hc. reflexivity.
Qed.

Lemma split_from_last (sep : ascii) (piece : string) :
  Py.char_in sep piece = false -> Py.split_from sep piece = (piece, []).
Proof.
  induction piece as [|c piece IH]; [reflexivity|].
  cbn [Py.char_in Py.split_from]. intros H.
  apply orb_false_iff in H as [Hc Hp].
  rewrite (IH Hp), Ascii.eqb_sym, Hc. reflexivity.
Qed.

Lemma split_join (sep : ascii) (l : list string) :
  l <> [] ->
  Forall (fun piece => Py.char_in sep piece = false) l ->
  Py.split sep (Py.join sep l) = l.
Proof.
  intros Hne Hl. induction Hl as [|piece l Hp Hl IH]; [now contradiction Hne|].
  unfold Py.join in *. destruct l as [|p ps].
  - cbn [String.concat]. unfold Py.split. now rewrite split_from_last.
  - change (String.concat (Py.chr sep) (piece :: p :: ps))
      with (piece ++ String sep (String.concat (Py.chr sep) (p :: ps))).
    unfold Py.split at 1. rewrite (split_from_piece sep piece _ Hp).
    rewrite IH by discriminate. reflexivity.
Qed.

(** X12: the allowed origins are the comma-separated pieces of the
    ALLOWED_ORIGINS variable: joined with commas they give back the value
    of the variable, none of them contains a comma, and there is always at
    least one (an empty variable gives the single origin '').  Without the
    variable they are the two localhost origins. *)
Theorem allowed_origins_of_environment :
  (forall (environ : string -> option string) (v : string),
     environ "ALLOWED_ORIGINS" = Some v ->
     Py.join "," (Backend.ALLOWED_ORIGINS environ) = v
     /\ Forall (fun origin => Py.char_in "," origin = false)
          (Backend.ALLOWED_ORIGINS environ)
     /\ Backend.ALLOWED_ORIGINS environ <> []
     /\ (v = "" -> Backend.ALLOWED_ORIGINS environ = [""]))
  /\ (forall environ : string -> option string,
        environ "ALLOWED_ORIGINS" = None ->
        Backend.ALLOWED_ORIGINS environ
        = ["http://localhost:5173"; "http://localhost:3000"]).
Proof.
  split.
  - intros environ v Hv. unfold Backend.ALLOWED_ORIGINS, Py.getenv.
    rewrite Hv. split; [apply split_from_join|].
    split; [apply split_pieces_no_sep|]. split.
    + unfold Py.split. destruct (Py.split_from "," v). discriminate.
    + now intros ->.
  - intros environ Hv. unfold Backend.ALLOWED_ORIGINS, Py.getenv.
    rewrite Hv. reflexivity.
Qed.

Lemma allowed_origins_of_environment_witness :
  Py.join ","
    (Backend.ALLOWED_ORIGINS
       (Spec.environ_with "ALLOWED_ORIGINS" "https://isl.example,,*"))
  = "https://isl.example,,*"
  /\ Backend.ALLOWED_ORIGINS
       (Spec.environ_with "ALLOWED_ORIGINS" "https://isl.example,,*")
     = ["https://isl.example"; ""; "*"]
  /\ Backend.ALLOWED_ORIGINS (Spec.environ_with "PORT" "8000")
     = ["http://localhost:5173"; "http://localhost:3000"].
Proof.
  split; [|split].
  - apply (proj1 allowed_origins_of_environment
             (Spec.environ_with "ALLOWED_ORIGINS" "https://isl.example,,*")).
    reflexivity.
  - reflexivity.
  - apply (proj2 allowed_origins_of_environment
             (Spec.environ_with "PORT" "8000")).
    reflexivity.
Defined.

(** X13: a non-empty list of origins without commas is configured by
    setting ALLOWED_ORIGINS to the origins joined with commas: the
    application then allows exactly those origins, in that order. *)
Theorem allowed_origins_round_trip :
  forall (environ : string -> option string) (origins : list string),
    origins <> [] ->
    Forall (fun origin => Py.char_in "," origin = false) origins ->
    environ "ALLOWED_ORIGINS" = Some (Py.join "," origins) ->
    Backend.ALLOWED_ORIGINS environ = origins.
Proof.
  intros environ origins Hne Hl Hv.
  unfold Backend.ALLOWED_ORIGINS, Py.getenv. rewrite Hv.
  now apply split_join.
Qed.

Lemma allowed_origins_round_trip_witness :
  Backend.ALLOWED_ORIGINS
    (Spec.environ_with "ALLOWED_ORIGINS"
       (Py.join "," ["https://a.example"; "https://b.example:8443"]))
  = ["https://a.example"; "https://b.example:8443"].
Proof.
  apply (allowed_origins_round_trip
           (Spec.environ_with "ALLOWED_ORIGINS"
              (Py.join "," ["https://a.example"; "https://b.example:8443"]))
           ["https://a.example"; "https://b.example:8443"]).
  - discriminate.
  - repeat constructor.
  - reflexivity.
Defined.

(** ** Sending the echoed text back *)



(** ** One request after another *)

Lemma deref_older (h newer : Store.store) (a : Store.addr) :
  a < List.length h -> Store.deref (h ++ newer)%list a = Store.deref h a.
Proof. intros H. unfold Store.deref. now apply app_nth1. Qed.

Lemma deref_newest (h newer : Store.store) (l : list string) :
  Store.deref (h ++ l :: newer)%list (List.length h) = l.
Proof. unfold Store.deref. apply nth_middle. Qed.

Lemma assign_newest (h newer : Store.store) (l l' : list string) :
  Store.assign (List.length h) l' (h ++ l :: newer)%list
  = (h ++ l' :: newer)%list.
Proof. induction h as [|x h IH]; cbn; [reflexivity | now rewrite IH]. Qed.

(** The spelling loop, run on a store whose newest object is the list of
    images: it appends to that object and to no other. *)
Lemma spell_into_newest (letters : Store.addr) (h : Store.store)
  (text : string) (images : list string) :
  letters < List.length h ->
  Store.for_each (Py.chars text)
    (fun char =>
       found <- Store.contains char letters ;;
       if found
       then Store.append (List.length h)
              ("/static/letters/" ++ char ++ ".jpg")
       else Store.ret tt)
    (h ++ [images])%list
  = (tt,
     (h ++ [(images
             ++ map Spec.letter_asset
                  (Spec.table_chars (Store.deref h letters) text))%list])%list).
Proof.
  intros Hl. unfold Spec.table_chars.
  revert images. induction text as [|c text IH]; intros images.
  - cbn. now rewrite app_nil_r.
  - cbn [Py.chars Store.for_each filter].
    unfold Store.bind at 1. unfold Store.bind at 1. unfold Store.contains.
    rewrite (deref_older h [images] letters Hl).
    destruct (Py.list_in (Py.chr c) (Store.deref h letters)).
    + unfold Store.append. rewrite deref_newest, assign_newest, IH.
      cbn [map]. rewrite <- app_assoc. reflexivity.
    + unfold Store.ret. rewrite IH. reflexivity.
Qed.

Lemma backend_tables_older (h newer : Store.store) :
  2 <= List.length h ->
  BackendStore.tables (h ++ newer)%list = BackendStore.tables h.
Proof.
  intros H. unfold BackendStore.tables.
  rewrite !deref_older;
    [reflexivity | unfold BackendStore.AVAILABLE_LETTERS; lia
     | unfold BackendStore.ISL_PHRASES; lia].
Qed.

Lemma root_tables_older (h newer : Store.store) :
  2 <= List.length h ->
  RootStore.tables (h ++ newer)%list = RootStore.tables h.
Proof.
  intros H. unfold RootStore.tables.
  rewrite !deref_older;
    [reflexivity | unfold RootStore.arr; lia | unfold RootStore.isl_gif; lia].
Qed.

(** On a store that holds the two tables, the backend handler returns what
    [Backend.process_text] returns on the tables found there, and leaves
    every object of the store as it was. *)
Lemma backend_store_process_text (h : Store.store) (i : Backend.TextInput) :
  2 <= List.length h ->
  exists newer : Store.store,
    BackendStore.process_text i h
    = (Backend.process_text (BackendStore.tables h) i, (h ++ newer)%list).
Proof.
  intros H. rewrite backend_process_text_any.
  unfold BackendStore.process_text. cbv zeta.
  destruct (_ =? _)%string.
  - exists []. now rewrite app_nil_r.
  - unfold Store.bind at 1. unfold Store.contains at 1.
    cbn [BackendStore.tables Backend.ISL_PHRASES Backend.AVAILABLE_LETTERS].
    destruct (Py.list_in _ (Store.deref h BackendStore.ISL_PHRASES)).
    + exists []. unfold Store.ret. now rewrite app_nil_r.
    + unfold Store.bind at 1. unfold Store.new_list.
      unfold Store.bind at 1.
      rewrite (spell_into_newest BackendStore.AVAILABLE_LETTERS h)
        by (unfold BackendStore.AVAILABLE_LETTERS; lia).
      unfold Store.bind, Store.contents, Store.ret.
      rewrite deref_newest. cbn [app].
      destruct (Spec.table_chars _ _); eexists; reflexivity.
Qed.

Lemma root_store_process_text (h : Store.store) (i : Root.TextInput) :
  2 <= List.length h ->
  exists newer : Store.store,
    RootStore.process_text i h
    = (Root.process_text (RootStore.tables h) i, (h ++ newer)%list).
Proof.
  intros H. rewrite root_process_text_any.
  unfold RootStore.process_text. cbv zeta.
  unfold Store.bind at 1. unfold Store.contains at 1.
  cbn [RootStore.tables Root.isl_gif Root.arr].
  destruct (Py.list_in _ (Store.deref h RootStore.isl_gif)).
  - exists []. unfold Store.ret. now rewrite app_nil_r.
  - unfold Store.bind at 1. unfold Store.new_list.
    unfold Store.bind at 1.
    rewrite (spell_into_newest RootStore.arr h)
      by (unfold RootStore.arr; lia).
    unfold Store.bind, Store.contents, Store.ret.
    rewrite deref_newest. cbn [app].
    eexists. reflexivity.
Qed.

(** Every route of the backend answers as [Backend.serve] does on the tables
    found in the store, and leaves every object of the store as it was. *)
Lemma backend_store_serve (h : Store.store) (req : Backend.Request) :
  2 <= List.length h ->
  exists newer : Store.store,
    BackendStore.serve req h
    = (snd (Backend.serve (BackendStore.tables h) req), (h ++ newer)%list).
Proof.
  intros H. destruct req as [| | |raw|raw]; cbn [BackendStore.serve Backend.serve].
  - exists []. unfold Store.ret. now rewrite app_nil_r.
  - exists []. rewrite app_nil_r. reflexivity.
  - exists [Py.sorted (Store.deref h BackendStore.ISL_PHRASES)].
    unfold BackendStore.get_available_phrases, Store.bind, Store.contents,
      Store.new_list, Store.ret.
    rewrite deref_newest, deref_older
      by (unfold BackendStore.ISL_PHRASES; lia).
    reflexivity.
  - destruct (Backend.TextInput_validate raw) as [i|].
    + destruct (backend_store_process_text h i H) as [newer E].
      exists newer. unfold Store.bind. rewrite E. reflexivity.
    + exists []. unfold Store.ret. now rewrite app_nil_r.
  - destruct (Backend.TextInput_validate raw) as [i|].
    + destruct (backend_store_process_text h i H) as [newer E].
      exists newer. unfold Store.bind, BackendStore.convert_text.
      rewrite E. reflexivity.
    + exists []. unfold Store.ret. now rewrite app_nil_r.
Qed.

Lemma root_store_serve (h : Store.store) (req : Root.Request) :
  2 <= List.length h ->
  exists newer : Store.store,
    RootStore.serve req h
    = (snd (Root.serve (RootStore.tables h) req), (h ++ newer)%list).
Proof.
  intros H. destruct req as [raw].
  cbn [RootStore.serve Root.serve Root.TextInput_validate].
  destruct (root_store_process_text h {| Root.text := raw |} H) as [newer E].
  exists newer. unfold Store.bind. rewrite E. reflexivity.
Qed.

(** A history of requests is answered request by request as if each came
    alone, and leaves every object of the store as it was. *)
Lemma backend_store_serve_all (reqs : list Backend.Request) (h : Store.store) :
  2 <= List.length h ->
  exists newer : Store.store,
    BackendStore.serve_all reqs h
    = (map (fun req => snd (Backend.serve (BackendStore.tables h) req)) reqs,
       (h ++ newer)%list).
Proof.
  revert h. induction reqs as [|req reqs IH]; intros h H.
  - exists []. cbn. unfold Store.ret. now rewrite app_nil_r.
  - cbn [BackendStore.serve_all map].
    destruct (backend_store_serve h req H) as [n1 E1].
    assert (H1 : 2 <= List.length (h ++ n1)%list)
      by (rewrite length_app; lia).
    destruct (IH (h ++ n1)%list H1) as [n2 E2].
    exists (n1 ++ n2)%list.
    unfold Store.bind at 1. rewrite E1.
    unfold Store.bind at 1. rewrite E2.
    rewrite (backend_tables_older h n1 H), app_assoc. reflexivity.
Qed.

Lemma root_store_serve_all (reqs : list Root.Request) (h : Store.store) :
  2 <= List.length h ->
  exists newer : Store.store,
    RootStore.serve_all reqs h
    = (map (fun req => snd (Root.serve (RootStore.tables h) req)) reqs,
       (h ++ newer)%list).
Proof.
  revert h. induction reqs as [|req reqs IH]; intros h H.
  - exists []. cbn. unfold Store.ret. now rewrite app_nil_r.
  - cbn [RootStore.serve_all map].
    destruct (root_store_serve h req H) as [n1 E1].
    assert (H1 : 2 <= List.length (h ++ n1)%list)
      by (rewrite length_app; lia).
    destruct (IH (h ++ n1)%list H1) as [n2 E2].
    exists (n1 ++ n2)%list.
    unfold Store.bind at 1. rewrite E1.
    unfold Store.bind at 1. rewrite E2.
    rewrite (root_tables_older h n1 H), app_assoc. reflexivity.
Qed.

Lemma backend_start_tables :
  BackendStore.tables BackendStore.start = Backend.module_globals.
Proof. reflexivity. Qed.

Lemma root_start_tables :
  RootStore.tables RootStore.start = Root.module_globals.
Proof. reflexivity. Qed.

(** After any history of requests the handler finds the tables of the loaded
    module and answers as the value-passing handler does on them. *)
Lemma backend_after_history (before : list Backend.Request)
  (i : Backend.TextInput) :
  BackendStore.tables
    (snd (BackendStore.serve_all before BackendStore.start))
  = Backend.module_globals
  /\ fst (BackendStore.process_text i
            (snd (BackendStore.serve_all before BackendStore.start)))
     = Backend.process_text Backend.module_globals i.
Proof.
  assert (H : 2 <= List.length BackendStore.start) by (cbn; lia).
  destruct (backend_store_serve_all before BackendStore.start H) as [n E].
  rewrite E. cbn [snd].
  assert (Ht : BackendStore.tables (BackendStore.start ++ n)%list
               = Backend.module_globals)
    by (rewrite (backend_tables_older _ n H); apply backend_start_tables).
  split; [exact Ht|].
  assert (H1 : 2 <= List.length (BackendStore.start ++ n)%list)
    by (rewrite length_app; lia).
  destruct (backend_store_process_text _ i H1) as [n' E'].
  rewrite E', Ht. reflexivity.
Qed.

Lemma root_after_history (before : list Root.Request) (i : Root.TextInput) :
  RootStore.tables (snd (RootStore.serve_all before RootStore.start))
  = Root.module_globals
  /\ fst (RootStore.process_text i
            (snd (RootStore.serve_all before RootStore.start)))
     = Root.process_text Root.module_globals i.
Proof.
  assert (H : 2 <= List.length RootStore.start) by (cbn; lia).
  destruct (root_store_serve_all before RootStore.start H) as [n E].
  rewrite E. cbn [snd].
  assert (Ht : RootStore.tables (RootStore.start ++ n)%list
               = Root.module_globals)
    by (rewrite (root_tables_older _ n H); apply root_start_tables).
  split; [exact Ht|].
  assert (H1 : 2 <= List.length (RootStore.start ++ n)%list)
    by (rewrite length_app; lia).
  destruct (root_store_process_text _ i H1) as [n' E'].
  rewrite E', Ht. reflexivity.
Qed.

(** C10: [process_text] is deterministic.  Run against the store of list
    objects, after any two histories of requests, two invocations with equal
    input text return equal results: the handlers append only to the list
    they create, so the two tables are after every history what they were
    when the module was loaded, and the result is that of the handler on
    those tables and the text. *)
Theorem process_text_deterministic :
  (forall (before1 before2 : list Backend.Request)
          (i1 i2 : Backend.TextInput),
     Backend.text i1 = Backend.text i2 ->
     fst (BackendStore.process_text i1
            (snd (BackendStore.serve_all before1 BackendStore.start)))
     = fst (BackendStore.process_text i2
              (snd (BackendStore.serve_all before2 BackendStore.start))))
  /\ (forall (before1 before2 : list Root.Request) (i1 i2 : Root.TextInput),
        Root.text i1 = Root.text i2 ->
        fst (RootStore.process_text i1
               (snd (RootStore.serve_all before1 RootStore.start)))
        = fst (RootStore.process_text i2
                 (snd (RootStore.serve_all before2 RootStore.start))))
  /\ (forall (before : list Backend.Request) (i : Backend.TextInput),
        BackendStore.tables
          (snd (BackendStore.serve_all before BackendStore.start))
        = Backend.module_globals
        /\ fst (BackendStore.process_text i
                  (snd (BackendStore.serve_all before BackendStore.start)))
           = Backend.process_text Backend.module_globals i)
  /\ (forall (before : list Root.Request) (i : Root.TextInput),
        RootStore.tables (snd (RootStore.serve_all before RootStore.start))
        = Root.module_globals
        /\ fst (RootStore.process_text i
                  (snd (RootStore.serve_all before RootStore.start)))
           = Root.process_text Root.module_globals i).
Proof.
  split; [|split; [|split]].
  - intros before1 before2 [t1] [t2]. cbn [Backend.text]. intros <-.
    rewrite (proj2 (backend_after_history before1 _)).
    now rewrite (proj2 (backend_after_history before2 _)).
  - intros before1 before2 [t1] [t2]. cbn [Root.text]. intros <-.
    rewrite (proj2 (root_after_history before1 _)).
    now rewrite (proj2 (root_after_history before2 _)).
  - exact backend_after_history.
  - exact root_after_history.
Qed.

Lemma process_text_deterministic_witness :
  fst (BackendStore.process_text {| Backend.text := "Hi there!" |}
         (snd (BackendStore.serve_all
                 [Backend.GET_api_phrases; Backend.POST_process "xyz123";
                  Backend.POST_api_convert "?"]
                 BackendStore.start)))
  = fst (BackendStore.process_text
           {| Backend.text := Py.chr "H" ++ "i there!" |}
           (snd (BackendStore.serve_all [] BackendStore.start)))
  /\ fst (RootStore.process_text {| Root.text := "Hi there!" |}
            (snd (RootStore.serve_all
                    [Root.POST_process "xyz123"; Root.POST_process "?"]
                    RootStore.start)))
     = fst (RootStore.process_text
              {| Root.text := Py.chr "H" ++ "i there!" |}
              (snd (RootStore.serve_all [] RootStore.start))).
Proof.
  split.
  - apply (proj1 process_text_deterministic). reflexivity.
  - apply (proj1 (proj2 process_text_deterministic)). reflexivity.
Defined.

(** X15: no route changes a list object that existed before the request.
    On a store that holds the two tables, the store after a request is the
    store before it followed by the lists the handler created (the list of
    images, the sorted listing), and the answer is that of the handler on
    the tables as they were. *)
Theorem handlers_leave_lists_unchanged :
  (forall (h : Store.store) (req : Backend.Request),
     2 <= List.length h ->
     Store.extends h (snd (BackendStore.serve req h))
     /\ fst (BackendStore.serve req h)
        = snd (Backend.serve (BackendStore.tables h) req))
  /\ (forall (h : Store.store) (req : Root.Request),
        2 <= List.length h ->
        Store.extends h (snd (RootStore.serve req h))
        /\ fst (RootStore.serve req h)
           = snd (Root.serve (RootStore.tables h) req)).
Proof.
  split; intros h req H.
  - destruct (backend_store_serve h req H) as [newer E]. rewrite E.
    split; [now exists newer | reflexivity].
  - destruct (root_store_serve h req H) as [newer E]. rewrite E.
    split; [now exists newer | reflexivity].
Qed.

Lemma handlers_leave_lists_unchanged_witness :
  Store.extends [["hi"]; ["h"; "i"; "t"]]
    (snd (BackendStore.serve (Backend.POST_process "Hit it!")
            [["hi"]; ["h"; "i"; "t"]]))
  /\ fst (BackendStore.serve (Backend.POST_process "Hit it!")
            [["hi"]; ["h"; "i"; "t"]])
     = Returned
         [("type", VStr "sequence");
          ("data", VList ["/static/letters/h.jpg"; "/static/letters/i.jpg";
                          "/static/letters/t.jpg"; "/static/letters/i.jpg";
                          "/static/letters/t.jpg"]);
          ("original_text", VStr "hit it")].
Proof.
  apply (proj1 handlers_leave_lists_unchanged [["hi"]; ["h"; "i"; "t"]]
           (Backend.POST_process "Hit it!")).
  cbn. lia.
Defined.
